(** * WalletPay webhook manager: verification-and-dispatch pipeline

    A shallow embedding of [src/WalletPay/WebhookManager.py] and the
    properties its specification states about it.

    Conventions of the embedding:
    - a Python [str] is a [string]: a sequence of characters with code
      points below 256, which is exactly what Starlette produces for header
      values (latin-1 decoding);
    - a Python [bytes] is a [list byte];
    - a Python exception is a value of [exn]; a call that may raise returns
      a [result];
    - the handler runs in a state-and-exception monad [M] whose state
      carries the application state the callbacks act on, the log written
      through [logging.info], and the trace of callbacks awaited so far. *)

From Stdlib Require Import ZArith NArith String Ascii List Lia.
From Stdlib Require Import Init.Byte.
From Stdlib Require Strings.Byte.
From stdpp Require Import gmap strings list.

Open Scope string_scope.
#[local] Set Warnings "-register-all".

(** ** Python values and exceptions *)

Definition bytes := list byte.

Inductive exn : Type :=
| HTTPException (status_code : Z) (detail : string)
| TypeError
| IndexError
| KeyError
| JSONDecodeError
| RuntimeError (msg : string).

Inductive result (A : Type) : Type :=
| Ok (a : A)
| Raise (e : exn).
Arguments Ok {A} a.
Arguments Raise {A} e.

(** What [json.loads] returns: [None], [bool], [int], [float] (kept as its
    lexeme), [str], [list], [dict]. *)
Inductive json : Type :=
| JNull
| JBool (b : bool)
| JInt (z : Z)
| JFloat (lexeme : string)
| JStr (s : string)
| JArr (items : list json)
| JObj (fields : list (string * json)).

(** [v == "literal"] for a value [v] read from JSON. *)
Definition py_eq_str (v : json) (lit : string) : bool :=
  match v with
  | JStr s => String.eqb s lit
  | _ => false
  end.

(** [data[0]] on a value read from JSON. *)
Definition getitem0 (data : json) : result json :=
  match data with
  | JArr (x :: _) => Ok x
  | JArr [] => Raise IndexError
  | JStr (String c _) => Ok (JStr (String c EmptyString))
  | JStr EmptyString => Raise IndexError
  | JObj _ => Raise KeyError
  | JNull | JBool _ | JInt _ | JFloat _ => Raise TypeError
  end.

(** [s[0]] on a [str]. *)
Definition str_getitem0 (s : string) : result ascii :=
  match s with
  | String c _ => Ok c
  | EmptyString => Raise IndexError
  end.

(** Truthiness of an [Optional[str]]: [None] and the empty string are
    falsy. *)
Definition truthy (o : option string) : bool :=
  match o with
  | Some (String _ _) => true
  | _ => false
  end.

(** [a or b] where [a] is an [Optional[str]] and [b] a [str]. *)
Definition py_or (a : option string) (b : string) : string :=
  match a with
  | Some (String c s) => String c s
  | _ => b
  end.

(** [f"{o}"] for an [Optional[str]]. *)
Definition format_opt (o : option string) : string :=
  match o with
  | Some s => s
  | None => "None"
  end.

(** ** Strings and bytes *)

Definition byte_of_N (n : N) : byte :=
  match Byte.of_N (n mod 256) with
  | Some b => b
  | None => x00
  end.

Definition N_of_char (c : ascii) : N := N_of_ascii c.
Definition char_of_N (n : N) : ascii := ascii_of_N (n mod 256).

(** [bytes(s, "utf-8")] for code points below 256: one byte below 128, two
    bytes from 128 on. *)
Fixpoint utf8_encode (s : string) : bytes :=
  match s with
  | EmptyString => []
  | String c s' =>
      let n := N_of_char c in
      if (n <? 128)%N then byte_of_N n :: utf8_encode s'
      else byte_of_N (N.lor 192 (N.shiftr n 6))
             :: byte_of_N (N.lor 128 (N.land n 63)) :: utf8_encode s'
  end.

(** [b.decode()] on bytes that are all below 128 (the only use: the output
    of [base64.b64encode]). *)
Definition decode (b : bytes) : string := string_of_list_byte b.

Definition ascii_byte (x : byte) : bool := (N_of_char (ascii_of_byte x) <? 128)%N.

(** [str.isascii]. *)
Fixpoint isascii (s : string) : bool :=
  match s with
  | EmptyString => true
  | String c s' => (N_of_char c <? 128)%N && isascii s'
  end.



(** ASCII lower-casing, as [str.lower] acts on the header names the code
    looks up. *)
Definition lower_char (c : ascii) : ascii :=
  let n := N_of_char c in
  if ((65 <=? n) && (n <=? 90))%N then char_of_N (n + 32) else c.

Fixpoint lower (s : string) : string :=
  match s with
  | EmptyString => EmptyString
  | String c s' => String (lower_char c) (lower s')
  end.

(** [s.startswith(p)]. *)
Fixpoint startswith (p s : string) : bool :=
  match p, s with
  | EmptyString, _ => true
  | String a p', String b s' => Ascii.eqb a b && startswith p' s'
  | String _ _, EmptyString => false
  end.

(** [s.split(sep)] for a non-empty [sep]: left to right, occurrences do not
    overlap, empty pieces are kept. [skip] counts the characters of a
    matched separator still to drop, [cur] is the piece being read, in
    reverse. *)
Fixpoint rev_string (acc s : string) : string :=
  match s with
  | EmptyString => acc
  | String c s' => rev_string (String c acc) s'
  end.

Fixpoint split_from (sep : string) (skip : nat) (cur : string) (s : string)
  : list string :=
  match s with
  | EmptyString => [rev_string "" cur]
  | String c s' =>
      match skip with
      | S k => split_from sep k cur s'
      | O =>
          if startswith sep s
          then rev_string "" cur :: split_from sep (String.length sep - 1) "" s'
          else split_from sep O (String c cur) s'
      end
  end.

Definition split (sep s : string) : list string := split_from sep 0 "" s.

(** ** base64.b64encode *)

Module Base64.

Definition alphabet : string :=
  "ABCDEFGHIJKLMNOPQRSTUVWXYZabcdefghijklmnopqrstuvwxyz0123456789+/".

Definition pad : byte := "=".

Definition enc (i : N) : byte :=
  match String.get (N.to_nat (N.land i 63)) alphabet with
  | Some c => byte_of_ascii c
  | None => pad
  end.

Fixpoint b64encode (s : bytes) : bytes :=
  match s with
  | [] => []
  | [a] =>
      let n := N.shiftl (Byte.to_N a) 16 in
      [enc (N.shiftr n 18); enc (N.shiftr n 12); pad; pad]
  | [a; b] =>
      let n := N.lor (N.shiftl (Byte.to_N a) 16) (N.shiftl (Byte.to_N b) 8) in
      [enc (N.shiftr n 18); enc (N.shiftr n 12); enc (N.shiftr n 6); pad]
  | a :: b :: c :: rest =>
      let n := N.lor (N.lor (N.shiftl (Byte.to_N a) 16)
                            (N.shiftl (Byte.to_N b) 8)) (Byte.to_N c) in
      enc (N.shiftr n 18) :: enc (N.shiftr n 12) :: enc (N.shiftr n 6)
        :: enc n :: b64encode rest
  end.

End Base64.

(** ** hashlib.sha256 (FIPS 180-4) and hmac (RFC 2104) *)

Module SHA256.

Local Open Scope N_scope.

Definition mask32 : N := 0xFFFFFFFF.
Definition add32 (a b : N) : N := N.land (a + b) mask32.
Definition not32 (a : N) : N := N.lxor a mask32.
Definition rotr (n a : N) : N :=
  N.lor (N.shiftr a n) (N.land (N.shiftl a (32 - n)) mask32).

Definition Ch (x y z : N) : N := N.lxor (N.land x y) (N.land (not32 x) z).
Definition Maj (x y z : N) : N :=
  N.lxor (N.lxor (N.land x y) (N.land x z)) (N.land y z).
Definition Sigma0 (x : N) : N := N.lxor (N.lxor (rotr 2 x) (rotr 13 x)) (rotr 22 x).
Definition Sigma1 (x : N) : N := N.lxor (N.lxor (rotr 6 x) (rotr 11 x)) (rotr 25 x).
Definition sigma0 (x : N) : N := N.lxor (N.lxor (rotr 7 x) (rotr 18 x)) (N.shiftr x 3).
Definition sigma1 (x : N) : N := N.lxor (N.lxor (rotr 17 x) (rotr 19 x)) (N.shiftr x 10).

(** The constants are given by the standard as the first 32 bits of the
    fractional parts of the cube roots of the first sixty-four primes
    ([K]) and of the square roots of the first eight primes ([H0]). *)
Definition is_prime (n : N) : bool :=
  (1 <? n) && forallb (fun d => negb (n mod N.of_nat d =? 0))
                      (seq 2 (N.to_nat n - 2)).

Definition primes (count : nat) : list N :=
  firstn count (filter is_prime (map N.of_nat (seq 2 400))).

(** Floor of the cube root of [n], found bit by bit from bit [bit - 1]
    down. *)
Fixpoint cbrt_bits (bit : nat) (n r : N) : N :=
  match bit with
  | O => r
  | S b =>
      let r' := r + 2 ^ N.of_nat b in
      cbrt_bits b n (if r' * r' * r' <=? n then r' else r)
  end.

Definition frac32_cbrt (p : N) : N := N.land (cbrt_bits 36 (p * 2 ^ 96) 0) mask32.
Definition frac32_sqrt (p : N) : N := N.land (N.sqrt (p * 2 ^ 64)) mask32.

Definition K : list N := Eval vm_compute in map frac32_cbrt (primes 64).
Definition H0 : list N := Eval vm_compute in map frac32_sqrt (primes 8).

(** Padding: the bit 1, zeros up to 56 mod 64 bytes, the bit length on 64
    bits, big-endian. *)
Definition be_bytes (width : nat) (n : N) : bytes :=
  map (fun i => byte_of_N (N.shiftr n (8 * N.of_nat i))) (rev (seq 0 width)).

Definition pad (msg : bytes) : bytes :=
  let len := length msg in
  let zeros := ((64 - (len + 9) mod 64) mod 64)%nat in
  (msg ++ [x80] ++ repeat x00 zeros ++ be_bytes 8 (8 * N.of_nat len))%list.

(** Big-endian 32-bit words of a byte string (a trailing partial word is
    dropped; padded messages have none). *)
Fixpoint words (b : bytes) : list N :=
  match b with
  | b0 :: b1 :: b2 :: b3 :: rest =>
      N.lor (N.lor (N.shiftl (Byte.to_N b0) 24) (N.shiftl (Byte.to_N b1) 16))
            (N.lor (N.shiftl (Byte.to_N b2) 8) (Byte.to_N b3))
        :: words rest
  | _ => []
  end.

(** Message schedule: [w] holds W[0..t-1]; [extend] appends [n] more
    words. *)
Fixpoint extend (n : nat) (w : list N) : list N :=
  match n with
  | O => w
  | S n' =>
      let t := length w in
      let at_ i := nth (t - i) w 0 in
      extend n' (w ++ [add32 (add32 (sigma1 (at_ 2%nat)) (at_ 7%nat))
                             (add32 (sigma0 (at_ 15%nat)) (at_ 16%nat))])%list
  end.

Definition round (st : list N) (kw : N * N) : list N :=
  match st with
  | [a; b; c; d; e; f; g; h] =>
      let t1 := add32 (add32 (add32 h (Sigma1 e)) (add32 (Ch e f g) (fst kw))) (snd kw) in
      let t2 := add32 (Sigma0 a) (Maj a b c) in
      [add32 t1 t2; a; b; c; add32 d t1; e; f; g]
  | _ => st
  end.

Definition compress (h : list N) (block : list N) : list N :=
  let w := extend 48 block in
  let st := fold_left round (combine K w) h in
  map (fun p => add32 (fst p) (snd p)) (combine h st).

(** The blocks of sixteen words. [fuel] bounds the number of blocks. *)
Fixpoint blocks (fuel : nat) (ws : list N) : list (list N) :=
  match fuel, ws with
  | S fuel', _ :: _ => firstn 16 ws :: blocks fuel' (skipn 16 ws)
  | _, _ => []
  end.

Definition digest (msg : bytes) : bytes :=
  let ws := words (pad msg) in
  let h := fold_left compress (blocks (length ws) ws) H0 in
  concat (map (be_bytes 4) h).

Definition block_size : nat := 64.

End SHA256.

(** [hmac.new(key, msg, digestmod=sha256).digest()]. *)
Definition xor_bytes (c : N) (b : bytes) : bytes :=
  map (fun x => byte_of_N (N.lxor (Byte.to_N x) c)) b.

Definition hmac_sha256 (key msg : bytes) : bytes :=
  let key0 :=
    if (SHA256.block_size <? length key)%nat then SHA256.digest key else key in
  let key1 := (key0 ++ repeat x00 (SHA256.block_size - length key0))%list in
  SHA256.digest (xor_bytes 0x5c key1
                   ++ SHA256.digest (xor_bytes 0x36 key1 ++ msg))%list.

(** ** hmac.compare_digest

    The comparison loop of CPython's [_tscmp]: the loop runs over the whole
    of [b] and accumulates the differences with [|=]; when the lengths
    differ, [b] is compared with itself and the result starts at 1. The
    loop returns the accumulated result together with the final value of
    its counter [i]. *)
Fixpoint tscmp_loop (left right : bytes) (result : N) (i : nat) : N * nat :=
  match left, right with
  | l :: left', r :: right' =>
      tscmp_loop left' right'
        (N.lor result (N.lxor (Byte.to_N l) (Byte.to_N r))) (S i)
  | _, _ => (result, i)
  end.

Definition _tscmp_run (a b : bytes) : N * nat :=
  let len := length b in
  if Nat.eqb (length a) len then tscmp_loop a b 0 0 else tscmp_loop b b 1 0.

Definition _tscmp (a b : bytes) : bool := N.eqb (fst (_tscmp_run a b)) 0.

(** [hmac.compare_digest(a, b)] for a [str] [a] and an [Optional[str]] [b]:
    both must be [str] and ASCII-only, otherwise [TypeError]. *)
Definition compare_digest (a : string) (b : option string) : result bool :=
  match b with
  | None => Raise TypeError
  | Some b =>
      if isascii a && isascii b
      then Ok (_tscmp (list_byte_of_string a) (list_byte_of_string b))
      else Raise TypeError
  end.

(** ** The request object (Starlette) *)

(** [request.headers]: the raw header list, names in lower case as the
    server delivers them. [get] lower-cases the key it is given and returns
    the value of the first header of that name, or [None]. *)
Definition Headers := list (string * string).

Fixpoint headers_get (h : Headers) (key : string) : option string :=
  match h with
  | [] => None
  | (k, v) :: h' => if String.eqb k (lower key) then Some v else headers_get h' key
  end.

(** [request.client] is taken to be present (a TCP peer). *)
Record Request := {
  method : string;          (* request.method *)
  url_path : string;        (* request.url.path *)
  headers : Headers;        (* request.headers *)
  client_host : string;     (* request.client.host *)
  body : bytes              (* await request.body() *)
}.

(** ** What the module imports and does not define

    [WalletPay.types.Event], the API client classes and the JSON reader
    behind [request.json()] are not part of the module; the development is
    parametric in them, and in the application state the callbacks act on. *)
Class Collaborators := {
  World : Type;
  Client : Type;
  Client_api_key : Client -> string;      (* client.api_key *)
  Event : Type;
  Event_init : json -> result Event;      (* Event(x) *)
  Event_type : Event -> json;             (* event.type *)
  json_loads : bytes -> option json       (* json.loads(body); None: it raises *)
}.

Section Manager.
Context `{Collaborators}.

(** A registered handler: called with the event and the client, it acts
    on the application state and either completes or raises. The manager
    object is not part of that state: handlers are registered before the
    server starts, not from within a handler. *)
Definition Callback : Type := Event -> Client -> World -> result unit * World.

(** ** State-and-exception monad of the handler *)

Record State := {
  world : World;               (* application state *)
  log : list string;           (* records written by logging.info *)
  awaited : list Callback      (* callbacks awaited so far, oldest first *)
}.

Definition M (A : Type) : Type := State -> result A * State.

Definition ret {A} (a : A) : M A := fun st => (Ok a, st).
Definition raise {A} (e : exn) : M A := fun st => (Raise e, st).
Definition bind {A B} (m : M A) (k : A -> M B) : M B :=
  fun st => match m st with
            | (Ok a, st') => k a st'
            | (Raise e, st') => (Raise e, st')
            end.
Definition lift {A} (r : result A) : M A := fun st => (r, st).

Notation "'let*' x := m 'in' k" := (bind m (fun x => k))
  (at level 10, x name, m at level 100, k at level 200).
Notation "m ;; k" := (bind m (fun _ => k))
  (at level 100, right associativity).

Definition logging_info (msg : string) : M unit :=
  fun st => (Ok tt, {| world := world st; log := (log st ++ [msg])%list;
                       awaited := awaited st |}).

(** [await callback(event=event, client=self.client)] *)
Definition await_callback (callback : Callback) (event : Event) (client : Client)
  : M unit :=
  fun st =>
    let '(r, w) := callback event client (world st) in
    (r, {| world := w; log := log st;
           awaited := (awaited st ++ [callback])%list |}).

(** [for callback in callbacks: await callback(event=event, client=client)] *)
Fixpoint for_callbacks (callbacks : list Callback) (event : Event)
  (client : Client) : M unit :=
  match callbacks with
  | [] => ret tt
  | callback :: rest =>
      await_callback callback event client ;; for_callbacks rest event client
  end.

(** ** class WebhookManager *)

Record WebhookManager := {
  successful_callbacks : list Callback;
  failed_callbacks : list Callback;
  host : string;
  port : Z;
  api_key : string;
  webhook_endpoint : string;
  client : Client
}.

Definition ALLOWED_IPS : gset string :=
  {[ "172.255.248.29"; "172.255.248.12"; "127.0.0.1" ]}.

Definition default_host : string := "0.0.0.0".
Definition default_port : Z := 9123.
Definition default_webhook_endpoint : string := "/wp_webhook".

Definition __init__ (client : Client) (host : string) (port : Z)
  (webhook_endpoint : string) : result WebhookManager :=
  match str_getitem0 webhook_endpoint with
  | Raise e => Raise e
  | Ok c =>
      Ok {| successful_callbacks := [];
            failed_callbacks := [];
            host := host;
            port := port;
            api_key := Client_api_key client;
            webhook_endpoint :=
              if negb (Ascii.eqb c "/") then "/" ++ webhook_endpoint
              else webhook_endpoint;
            client := client |}
  end.

(** [successful_handler()] returns [decorator]; [decorator(func)] appends
    [func] to the list held by the manager object and returns [func]. The
    manager object is the state the decorator acts on. *)
Definition decorator : Type := Callback -> WebhookManager -> Callback * WebhookManager.

Definition successful_handler : decorator :=
  fun func self =>
    (func,
     {| successful_callbacks := (successful_callbacks self ++ [func])%list;
        failed_callbacks := failed_callbacks self;
        host := host self; port := port self; api_key := api_key self;
        webhook_endpoint := webhook_endpoint self; client := client self |}).

Definition failed_handler : decorator :=
  fun func self =>
    (func,
     {| successful_callbacks := successful_callbacks self;
        failed_callbacks := (failed_callbacks self ++ [func])%list;
        host := host self; port := port self; api_key := api_key self;
        webhook_endpoint := webhook_endpoint self; client := client self |}).

(** [for ip in forwarded_for_ips: if ip in self.ALLOWED_IPS: return ip];
    falling off the loop returns [None]. *)
Fixpoint first_allowed (forwarded_for_ips : list string) : option string :=
  match forwarded_for_ips with
  | [] => None
  | ip :: rest =>
      if bool_decide (ip ∈ ALLOWED_IPS) then Some ip else first_allowed rest
  end.

Definition __get_x_forwarded_for (headers : Headers) : option string :=
  let x_forwarded_for := headers_get headers "X-Forwarded-For" in
  if truthy x_forwarded_for
  then first_allowed (split ", " (format_opt x_forwarded_for))
  else None.

Definition __get_client_ip (request : Request) : M string :=
  let x_forwarded_for := __get_x_forwarded_for (headers request) in
  let client_ip := client_host request in
  if truthy x_forwarded_for then ret (format_opt x_forwarded_for)
  else if negb (bool_decide (client_ip ∈ ALLOWED_IPS)) then
    logging_info ("IP " ++ client_ip ++ " not allowed") ;;
    raise (HTTPException 403 "IP not allowed")
  else ret client_ip.

(** The path and the message of lines 166-167, and the expected signature
    of lines 169-175. *)
Definition signed_path (request : Request) : string :=
  py_or (headers_get (headers request) "X-Original-URI") (url_path request).

Definition signed_message (request : Request) : string :=
  let timestamp := headers_get (headers request) "WalletPay-Timestamp" in
  method request ++ "." ++ signed_path request ++ "." ++ format_opt timestamp
    ++ "." ++ decode (Base64.b64encode (body request)).

Definition expected_signature_b64 (self : WebhookManager) (request : Request)
  : string :=
  let expected_signature :=
    hmac_sha256 (utf8_encode (api_key self))
                (utf8_encode (signed_message request)) in
  decode (Base64.b64encode expected_signature).

Definition message_dict (msg : string) : json := JObj [("message", JStr msg)].

(** [await request.json()]: [json.loads] on the body; [JSONDecodeError]
    stands for the [ValueError] it raises on a body that is not JSON. *)
Definition request_json (request : Request) : M json :=
  match json_loads (body request) with
  | Some data => ret data
  | None => raise JSONDecodeError
  end.

Definition _handle_webhook (self : WebhookManager) (request : Request) : M json :=
  let* client_ip := __get_client_ip request in
  logging_info ("Incoming webhook from " ++ client_ip) ;;
  let* data := request_json request in
  let signature := headers_get (headers request) "Walletpay-Signature" in
  let expected := expected_signature_b64 self request in
  let* same := lift (compare_digest expected signature) in
  if negb same then
    logging_info ("Invalid signature. Expected: " ++ expected
                  ++ " Get from header: " ++ format_opt signature) ;;
    raise (HTTPException 400 "Invalid signature")
  else
    let* first := lift (getitem0 data) in
    let* event := lift (Event_init first) in
    if py_eq_str (Event_type event) "ORDER_PAID" then
      for_callbacks (successful_callbacks self) event (client self) ;;
      ret (message_dict "Successful event processed!")
    else if py_eq_str (Event_type event) "ORDER_FAILED" then
      for_callbacks (failed_callbacks self) event (client self) ;;
      ret (message_dict "Failed event processed!")
    else
      ret (message_dict "Webhook received with unknown status!").

End Manager.

(** ** What the framework answers (FastAPI)

    A returned dict is sent as JSON with status 200; an [HTTPException] is
    sent as [{"detail": detail}] with its status code; any other exception
    reaches the server-error middleware, which answers 500 with the plain
    text [Internal Server Error]. *)
Inductive Content : Type :=
| JsonContent (j : json)
| TextContent (s : string).

Record Response := { status : Z; content : Content }.

Definition detail_dict (detail : string) : json := JObj [("detail", JStr detail)].

Definition fastapi_response (r : result json) : Response :=
  match r with
  | Ok d => {| status := 200; content := JsonContent d |}
  | Raise (HTTPException code detail) =>
      {| status := code; content := JsonContent (detail_dict detail) |}
  | Raise _ => {| status := 500; content := TextContent "Internal Server Error" |}
  end.

(** ** The specification's vocabulary

    Definitions that follow the wording of the specification, to be
    compared with the code above. *)
Section Vocabulary.
Context `{Collaborators}.

(** The forbidden-origin outcome. *)
Definition forbidden : exn := HTTPException 403 "IP not allowed".

(** The invalid-signature outcome. *)
Definition invalid_signature : exn := HTTPException 400 "Invalid signature".

(** A state in which only a log record was added. *)
Definition logged (records : list string) (st : State) : State :=
  {| world := world st; log := (log st ++ records)%list; awaited := awaited st |}.

(** Direct-peer evaluation: the peer address must be a member of the
    allow-list, otherwise the resolver fails with the forbidden outcome
    (and logs the rejected address). *)
Definition direct_peer_evaluation (request : Request) (st : State)
  : result string * State :=
  if decide (client_host request ∈ ALLOWED_IPS)
  then (Ok (client_host request), st)
  else (Raise forbidden,
        logged ["IP " ++ client_host request ++ " not allowed"] st).

(** The forwarding header yields an allowed candidate. *)
Definition forwarding_yields (request : Request) (ip : string) : Prop :=
  exists xff, headers_get (headers request) "X-Forwarded-For" = Some xff /\
              ip ∈ split ", " xff /\ ip ∈ ALLOWED_IPS.

(** The request passes the IP gate, resolved to [ip]. *)
Definition passes_ip_gate (request : Request) (ip : string) : Prop :=
  forall st, __get_client_ip request st = (Ok ip, st).

(** The request passes the signature gate. *)
Definition passes_signature_gate (self : WebhookManager) (request : Request)
  : Prop :=
  compare_digest (expected_signature_b64 self request)
                 (headers_get (headers request) "Walletpay-Signature") = Ok true.

(** The canonical message [METHOD.PATH.TIMESTAMP.BASE64(RAW_BODY)]. *)
Definition canonical_message (method path timestamp : string) (raw_body : bytes)
  : string :=
  String.concat "." [method; path; timestamp;
                     decode (Base64.b64encode raw_body)].

(** The keyed digest of a message, base64-encoded. *)
Definition signature_of (key message : string) : string :=
  decode (Base64.b64encode (hmac_sha256 (utf8_encode key) (utf8_encode message))).

(** Every callback of the list completes when its turn comes, starting
    from the application state [w]. *)
Fixpoint all_complete (callbacks : list Callback) (event : Event)
  (client : Client) (w : World) : Prop :=
  match callbacks with
  | [] => True
  | callback :: rest =>
      match callback event client w with
      | (Ok _, w') => all_complete rest event client w'
      | (Raise _, _) => False
      end
  end.

(** The application state after the callbacks of the list ran in order. *)
Fixpoint world_after (callbacks : list Callback) (event : Event)
  (client : Client) (w : World) : World :=
  match callbacks with
  | [] => w
  | callback :: rest =>
      world_after rest event client (snd (callback event client w))
  end.

End Vocabulary.

(** ** Sample collaborators, manager and requests

    Concrete values on which the statements below are exercised. The
    signatures are those [hmac]/[base64] produce for the key
    [test-api-key]. *)
Module Sample.

Definition quote : string := String "034" EmptyString.

(** The body text [[{"type":"t"}]]. *)
Definition event_text (t : string) : string :=
  "[{" ++ quote ++ "type" ++ quote ++ ":" ++ quote ++ t ++ quote ++ "}]".

Definition event_json (t : string) : json := JArr [JObj [("type", JStr t)]].

(** The JSON reader on the sample bodies; it takes every other body as
    malformed. *)
Definition sample_json_loads (b : bytes) : option json :=
  let text := string_of_list_byte b in
  if String.eqb text (event_text "ORDER_PAID") then Some (event_json "ORDER_PAID")
  else if String.eqb text (event_text "ORDER_FAILED") then Some (event_json "ORDER_FAILED")
  else if String.eqb text (event_text "SOME_OTHER_TYPE") then Some (event_json "SOME_OTHER_TYPE")
  else if String.eqb text "[]" then Some (JArr [])
  else None.

(** A sample event class: built from a dict, its type is the value under
    the key [type] ([None] without one). *)
Record SampleEvent := { sample_type : json; sample_data : json }.

Fixpoint dict_get (fields : list (string * json)) (key : string) : json :=
  match fields with
  | [] => JNull
  | (k, v) :: rest => if String.eqb k key then v else dict_get rest key
  end.

Definition sample_Event_init (x : json) : result SampleEvent :=
  match x with
  | JObj fields => Ok {| sample_type := dict_get fields "type"; sample_data := x |}
  | _ => Raise TypeError
  end.

Record SampleClient := { sample_api_key : string }.

(** The application state of the samples is a journal of notes. *)
Definition collaborators : Collaborators := {|
  World := list string;
  Client := SampleClient;
  Client_api_key := sample_api_key;
  Event := SampleEvent;
  Event_init := sample_Event_init;
  Event_type := sample_type;
  json_loads := sample_json_loads
|}.

#[local] Existing Instance collaborators.

(** A callback that writes a note, and one that raises. *)
Definition note (tag : string) : Callback :=
  fun _ _ journal => (Ok tt, (journal ++ [tag])%list).

Definition boom : Callback :=
  fun _ _ journal => (Raise (RuntimeError "boom"), journal).

Definition the_client : SampleClient := {| sample_api_key := "test-api-key" |}.

Definition manager_with (on_success on_failure : list Callback) : WebhookManager :=
  {| successful_callbacks := on_success;
     failed_callbacks := on_failure;
     host := default_host;
     port := default_port;
     api_key := "test-api-key";
     webhook_endpoint := default_webhook_endpoint;
     client := the_client |}.

Definition manager : WebhookManager :=
  manager_with [note "paid-1"; note "paid-2"] [note "failed-1"].

Definition state0 : State := {| world := []; log := []; awaited := [] |}.

Definition post (peer : string) (hdrs : Headers) (text : string) : Request :=
  {| method := "POST"; url_path := "/wp_webhook"; headers := hdrs;
     client_host := peer; body := list_byte_of_string text |}.

Definition stamp : string * string := ("walletpay-timestamp", "1700000000").
Definition signed (sig : string) : string * string := ("walletpay-signature", sig).

Definition paid_signature : string := "XC/aYyjmBpcUD5eXwvy1TqKsmYeaScg46dll6SSUuqM=".
Definition failed_signature : string := "BB/76hn7Y11m7Ok9Ye61gGurOcS/ZrHEZw7/BRuSRuA=".
Definition other_signature : string := "nMj/ub9f4teXgeqYR5u1lxP1JsvdTlO68a8fNIcDX4Y=".
Definition empty_signature : string := "Xi8q89RowxQn+vWkG4M+dZbf7C9WNI7K4h8c/koao+8=".
Definition broken_signature : string := "6XxqN7lLwnusnh/1H+PuOKsR5qISYncchklUP/5PFQs=".
(** Signature of the paid body with the text [None] in place of the
    timestamp. *)
Definition unstamped_signature : string := "zRPqCu5NDpNgBvYhZOFT9o8kqS22wg1o73clbbaw7MA=".

Definition paid_request : Request :=
  post "127.0.0.1" [signed paid_signature; stamp] (event_text "ORDER_PAID").
Definition failed_request : Request :=
  post "127.0.0.1" [signed failed_signature; stamp] (event_text "ORDER_FAILED").
Definition other_request : Request :=
  post "127.0.0.1" [signed other_signature; stamp] (event_text "SOME_OTHER_TYPE").
Definition empty_request : Request :=
  post "127.0.0.1" [signed empty_signature; stamp] "[]".
Definition broken_request : Request :=
  post "127.0.0.1" [signed broken_signature; stamp] "{not json".
(** A body that is not JSON, under a signature made for another body. *)
Definition garbled_request : Request :=
  post "127.0.0.1" [signed paid_signature; stamp] "{not json".
Definition tampered_request : Request :=
  post "127.0.0.1" [signed paid_signature; stamp] (event_text "ORDER_FAILED").
Definition outsider_request : Request :=
  post "10.0.0.5" [signed paid_signature; stamp] (event_text "ORDER_PAID").
Definition unsigned_request : Request :=
  post "127.0.0.1" [stamp] (event_text "ORDER_PAID").
Definition unstamped_request : Request :=
  post "127.0.0.1" [signed unstamped_signature] (event_text "ORDER_PAID").
(** A signature header holding the single character of code 233. *)
Definition latin1_request : Request :=
  post "127.0.0.1" [signed (String "233" EmptyString); stamp]
       (event_text "ORDER_PAID").
Definition forwarded_request : Request :=
  post "10.0.0.5"
       [("x-forwarded-for", "203.0.113.7, 172.255.248.12, 127.0.0.1");
        signed paid_signature; stamp]
       (event_text "ORDER_PAID").
(** A request forwarded by a proxy that rewrote the path and passes the
    original one along; the signature is over the original path. *)
Definition proxied_signature : string := "tS7ZguUtZ1wvFg+WrT5dO3T8yuBvWVdJDKuiFdh85F4=".
Definition proxied_request : Request :=
  post "127.0.0.1"
       [("x-original-uri", "/hooks/wallet"); signed proxied_signature; stamp]
       (event_text "ORDER_PAID").
(** An [X-Original-URI] header with an empty value. *)
Definition empty_uri_request : Request :=
  post "127.0.0.1" [("x-original-uri", ""); signed paid_signature; stamp]
       (event_text "ORDER_PAID").

End Sample.

(** ** Vocabulary for sequences of operations *)
Section Sequences.
Context `{Collaborators}.

(** One use of a decorator: [@manager.successful_handler()] or
    [@manager.failed_handler()] on a function. *)
Inductive Registration : Type :=
| OnSuccess (func : Callback)
| OnFailure (func : Callback).

Definition register (r : Registration) (self : WebhookManager) : WebhookManager :=
  match r with
  | OnSuccess func => snd (successful_handler func self)
  | OnFailure func => snd (failed_handler func self)
  end.

(** The decorators applied one after another, in program order. *)
Definition register_all (rs : list Registration) (self : WebhookManager)
  : WebhookManager :=
  fold_left (fun manager r => register r manager) rs self.

Definition success_functions (rs : list Registration) : list Callback :=
  flat_map (fun r => match r with OnSuccess func => [func] | OnFailure _ => [] end) rs.

Definition failure_functions (rs : list Registration) : list Callback :=
  flat_map (fun r => match r with OnFailure func => [func] | OnSuccess _ => [] end) rs.

(** The request as it arrives from the peer [peer] with an
    [X-Forwarded-For] header of value [value] put in front of its
    headers. *)
Definition forwarded_as (value peer : string) (request : Request) : Request :=
  {| method := method request;
     url_path := url_path request;
     headers := ("x-forwarded-for", value) :: headers request;
     client_host := peer;
     body := body request |}.

End Sequences.

(** [c in s] for a character. *)
Fixpoint has_char (c : ascii) (s : string) : bool :=
  match s with
  | EmptyString => false
  | String d s' => Ascii.eqb c d || has_char c s'
  end.

(** [sub in s]: [sub] occurs in [s]. *)
Definition occurs (sub s : string) : Prop :=
  exists before after, s = before ++ sub ++ after.

(** ** More samples: payloads that are not a list of objects *)
Module Oddities.

(** The body text [{"type":"ORDER_PAID"}]: the event without the list
    around it. *)
Definition bare_event_text : string :=
  "{" ++ Sample.quote ++ "type" ++ Sample.quote ++ ":"
      ++ Sample.quote ++ "ORDER_PAID" ++ Sample.quote ++ "}".

(** The JSON reader on three more bodies; the others as in the samples
    above. *)
Definition odd_json_loads (b : bytes) : option json :=
  let text := string_of_list_byte b in
  if String.eqb text bare_event_text then Some (JObj [("type", JStr "ORDER_PAID")])
  else if String.eqb text "42" then Some (JInt 42)
  else if String.eqb text "[1]" then Some (JArr [JInt 1])
  else Sample.sample_json_loads b.

Definition collaborators : Collaborators := {|
  World := list string;
  Client := Sample.SampleClient;
  Client_api_key := Sample.sample_api_key;
  Event := Sample.SampleEvent;
  Event_init := Sample.sample_Event_init;
  Event_type := Sample.sample_type;
  json_loads := odd_json_loads
|}.

#[local] Existing Instance collaborators.

Definition note (tag : string) : Callback :=
  fun _ _ journal => (Ok tt, (journal ++ [tag])%list).

Definition manager : WebhookManager :=
  {| successful_callbacks := [note "paid-1"];
     failed_callbacks := [];
     host := default_host;
     port := default_port;
     api_key := "test-api-key";
     webhook_endpoint := default_webhook_endpoint;
     client := Sample.the_client |}.

Definition state0 : State :=
  {| world := []; log := []; awaited := [] |}.

Definition bare_event_request : Request :=
  Sample.post "127.0.0.1"
    [Sample.signed "gwv0bBjsyZX/5gbc2B6HPhnh54gVq5l+ANu1dPIbLGQ="; Sample.stamp]
    bare_event_text.

Definition number_request : Request :=
  Sample.post "127.0.0.1"
    [Sample.signed "byV8T8e1D62uDIP1dpyQTnsJDov5fb7DO2fjwO1z+Ds="; Sample.stamp]
    "42".

Definition list_of_number_request : Request :=
  Sample.post "127.0.0.1"
    [Sample.signed "Wl9Y0qxenMFowTEKswSR3D67hAHXw/2ypic15155Wfk="; Sample.stamp]
    "[1]".

End Oddities.

(** Position of a character in the base64 alphabet. *)
Fixpoint index_in (x : ascii) (s : string) (i : N) : option N :=
  match s with
  | EmptyString => None
  | String c s' => if Ascii.eqb x c then Some i else index_in x s' (i + 1)
  end.

Definition b64_index (x : byte) : option N :=
  index_in (ascii_of_byte x) Base64.alphabet 0.

(** [sub in s], computed. *)
Fixpoint contains (sub s : string) : bool :=
  match s with
  | EmptyString => startswith sub ""
  | String _ s' => startswith sub s || contains sub s'
  end.

(** * Properties *)

(** ** Known answers of the library functions

    Values taken from the Python functions the definitions stand for. *)

Example b64encode_known :
  map (fun text => decode (Base64.b64encode (utf8_encode text)))
      ["hello world!!"; "a"; "ab"; ""]
  = ["aGVsbG8gd29ybGQhIQ=="; "YQ=="; "YWI="; ""].
Proof. vm_compute. reflexivity. Qed.

Example sha256_known :
  decode (Base64.b64encode (SHA256.digest (utf8_encode "abc")))
  = "ungWv48Bz+pBQUDeXa4iI7ADYaOWF3qctBD/YfIAFa0=".
Proof. vm_compute. reflexivity. Qed.

Example hmac_sha256_known :
  signature_of "key" "The quick brown fox jumps over the lazy dog"
  = "97yD9DBThCSxMpjmqm+xQ+9NWaFJRhdZl0edvC0aPNg=".
Proof. vm_compute. reflexivity. Qed.

Example split_known :
  split ", " "1.2.3.4, 5.6.7.8,9, , x, " = ["1.2.3.4"; "5.6.7.8,9"; ""; "x"; ""]
  /\ split ", " "" = [""]
  /\ split ", " "127.0.0.1" = ["127.0.0.1"].
Proof. repeat split. Qed.

Example utf8_encode_known :
  utf8_encode (String "233" "") = ["195"%byte; "169"%byte].
Proof. reflexivity. Qed.

(** ** The library functions *)

Lemma byte_to_N_inj (x y : byte) : Byte.to_N x = Byte.to_N y -> x = y.
Proof.
  intros E. pose proof (Byte.of_to_N x) as Hx.
  rewrite E, Byte.of_to_N in Hx. congruence.
Qed.

Lemma list_byte_of_string_inj (s t : string) :
  list_byte_of_string s = list_byte_of_string t -> s = t.
Proof.
  intros E. rewrite <- (string_of_list_byte_of_string s),
    <- (string_of_list_byte_of_string t). now rewrite E.
Qed.

Lemma list_byte_of_string_length (s : string) :
  length (list_byte_of_string s) = String.length s.
Proof.
  unfold list_byte_of_string. rewrite length_map.
  induction s as [|c s IH]; simpl; congruence.
Qed.

(** The loop ends with a zero result exactly when it started from zero and
    met no difference. *)
Lemma tscmp_loop_zero (left right : bytes) (acc : N) (i : nat) :
  length left = length right ->
  fst (tscmp_loop left right acc i) = 0%N <-> acc = 0%N /\ left = right.
Proof.
  revert right acc i.
  induction left as [|l left IH]; intros [|r right] acc i Hlen;
    simpl in *; try discriminate.
  - intuition.
  - injection Hlen as Hlen. rewrite (IH right _ _ Hlen).
    rewrite N.lor_eq_0_iff, N.lxor_eq_0_iff. split.
    + intros [[-> E] ->]. apply byte_to_N_inj in E. now subst.
    + intros [-> E]. injection E as -> ->. auto.
Qed.

(** The loop counter ends at the length of the right operand. *)
Lemma tscmp_loop_count (left right : bytes) (acc : N) (i : nat) :
  length left = length right ->
  snd (tscmp_loop left right acc i) = (i + length right)%nat.
Proof.
  revert right acc i.
  induction left as [|l left IH]; intros [|r right] acc i Hlen;
    simpl in *; try discriminate.
  - lia.
  - injection Hlen as Hlen. rewrite (IH right _ _ Hlen). lia.
Qed.

Lemma _tscmp_spec (a b : bytes) : _tscmp a b = true <-> a = b.
Proof.
  unfold _tscmp, _tscmp_run. rewrite N.eqb_eq.
  destruct (Nat.eqb (length a) (length b)) eqn:E.
  - apply Nat.eqb_eq in E. rewrite (tscmp_loop_zero a b 0 0 E). intuition.
  - apply Nat.eqb_neq in E. rewrite (tscmp_loop_zero b b 1 0 eq_refl).
    split; [intros [? _]; discriminate | intros ->; contradiction].
Qed.

Lemma _tscmp_run_count (a b : bytes) : snd (_tscmp_run a b) = length b.
Proof.
  unfold _tscmp_run.
  destruct (Nat.eqb (length a) (length b)) eqn:E.
  - apply Nat.eqb_eq in E. now rewrite tscmp_loop_count.
  - now rewrite tscmp_loop_count.
Qed.

(** On ASCII-only strings [compare_digest] is string equality; it raises
    [TypeError] on [None] and on a string with a character from 128 on. *)
Lemma compare_digest_spec (a : string) (b : option string) :
  isascii a = true ->
  compare_digest a b = Ok true <-> b = Some a.
Proof.
  intros Ha. unfold compare_digest. destruct b as [b|].
  - rewrite Ha. simpl. destruct (isascii b) eqn:Hb.
    + split.
      * intros E. injection E as E. apply _tscmp_spec in E.
        apply list_byte_of_string_inj in E. now subst.
      * intros E. injection E as ->. f_equal. now apply _tscmp_spec.
    + split; [discriminate|]. intros E. injection E as ->. congruence.
  - split; discriminate.
Qed.

Lemma compare_digest_cases (a : string) (b : option string) :
  isascii a = true ->
  compare_digest a b =
    match b with
    | None => Raise TypeError
    | Some s => if isascii s then Ok (String.eqb a s) else Raise TypeError
    end.
Proof.
  intros Ha. unfold compare_digest. destruct b as [b|]; [|reflexivity].
  rewrite Ha. simpl. destruct (isascii b); [|reflexivity]. f_equal.
  destruct (String.eqb a b) eqn:E.
  - apply String.eqb_eq in E. subst. now apply _tscmp_spec.
  - apply String.eqb_neq in E. apply not_true_is_false. intros T.
    apply _tscmp_spec, list_byte_of_string_inj in T. contradiction.
Qed.

(** Every character [b64encode] writes is ASCII. *)
Lemma enc_ascii (i : N) : ascii_byte (Base64.enc i) = true.
Proof.
  unfold Base64.enc.
  assert (Hlt : (N.to_nat (N.land i 63) < 64)%nat).
  { assert (N.land i 63 < 64)%N; [|lia].
    change 63%N with (N.ones 6). rewrite N.land_ones.
    apply N.mod_upper_bound. discriminate. }
  generalize dependent (N.to_nat (N.land i 63)). intros n Hlt.
  do 64 (destruct n as [|n]; [reflexivity|]). lia.
Qed.

Lemma b64encode_ascii (s : bytes) :
  forallb ascii_byte (Base64.b64encode s) = true.
Proof.
  assert (Hpad : ascii_byte Base64.pad = true) by reflexivity.
  assert (H3 : forall n rest, (length rest < n)%nat ->
             forallb ascii_byte (Base64.b64encode rest) = true).
  { induction n as [|n IH]; intros rest Hn; [lia|].
    destruct rest as [|a [|b [|c rest]]]; cbn [Base64.b64encode forallb];
      rewrite ?enc_ascii, ?Hpad; try reflexivity.
    cbn [andb]. apply IH. simpl in Hn. lia. }
  apply (H3 (S (length s))). lia.
Qed.

Lemma isascii_decode (b : bytes) :
  forallb ascii_byte b = true -> isascii (decode b) = true.
Proof.
  unfold decode, string_of_list_byte.
  induction b as [|x b IH]; simpl; [reflexivity|].
  intros Hb. apply andb_prop in Hb as [Hx Hb].
  unfold ascii_byte in Hx. rewrite Hx. simpl. auto.
Qed.

Lemma isascii_b64 (b : bytes) : isascii (decode (Base64.b64encode b)) = true.
Proof. apply isascii_decode, b64encode_ascii. Qed.

(** ** The allow-list and the forwarded-for scan *)

Lemma elem_of_ALLOWED_IPS (ip : string) :
  ip ∈ ALLOWED_IPS <->
  ip = "172.255.248.29" \/ ip = "172.255.248.12" \/ ip = "127.0.0.1".
Proof.
  unfold ALLOWED_IPS. rewrite !elem_of_union, !elem_of_singleton. tauto.
Qed.

Lemma allowed_truthy (ip : string) : ip ∈ ALLOWED_IPS -> truthy (Some ip) = true.
Proof. rewrite elem_of_ALLOWED_IPS. intros [->|[->| ->]]; reflexivity. Qed.

Lemma truthy_format (o : option string) :
  truthy o = true -> o = Some (format_opt o).
Proof. destruct o as [[|c s]|]; simpl; congruence. Qed.

(** The scan returns the first allowed candidate, in list order. *)
Lemma first_allowed_Some (ips : list string) (ip : string) :
  first_allowed ips = Some ip <->
  exists pre post, ips = (pre ++ ip :: post)%list /\
                   Forall (fun c => c ∉ ALLOWED_IPS) pre /\ ip ∈ ALLOWED_IPS.
Proof.
  induction ips as [|c ips IH]; simpl.
  - split; [discriminate|]. intros (pre & post & E & _). now destruct pre.
  - case_bool_decide as Hc.
    + split.
      * intros [= ->]. exists [], ips. auto.
      * intros ([|c' pre] & post & E & Hpre & Hip); simplify_eq/=; [done|].
        apply Forall_cons in Hpre as [Hc' _]. contradiction.
    + rewrite IH. split.
      * intros (pre & post & -> & Hpre & Hip). exists (c :: pre), post. auto.
      * intros ([|c' pre] & post & E & Hpre & Hip); simplify_eq/=; [done|].
        apply Forall_cons in Hpre as [_ Hpre]. eauto.
Qed.

Lemma first_allowed_None (ips : list string) :
  first_allowed ips = None <-> Forall (fun c => c ∉ ALLOWED_IPS) ips.
Proof.
  induction ips as [|c ips IH]; simpl.
  - split; auto.
  - case_bool_decide as Hc.
    + split; [discriminate|]. intros Hall.
      apply Forall_cons in Hall as [Hn _]. contradiction.
    + rewrite IH. split; [auto|]. intros Hall. now apply Forall_cons in Hall.
Qed.

Lemma first_allowed_allowed (ips : list string) (ip : string) :
  first_allowed ips = Some ip -> ip ∈ ips /\ ip ∈ ALLOWED_IPS.
Proof.
  intros (pre & post & -> & _ & Hip)%first_allowed_Some.
  split; [|done]. apply elem_of_app. right. apply elem_of_cons. now left.
Qed.

Lemma first_allowed_exists (ips : list string) (ip : string) :
  ip ∈ ips -> ip ∈ ALLOWED_IPS -> exists ip', first_allowed ips = Some ip'.
Proof.
  intros Hin Hip. destruct (first_allowed ips) as [ip'|] eqn:E; [eauto|].
  apply first_allowed_None in E. rewrite Forall_forall in E.
  exfalso. eapply E; eauto.
Qed.

Lemma __get_x_forwarded_for_allowed (h : Headers) (ip : string) :
  __get_x_forwarded_for h = Some ip -> ip ∈ ALLOWED_IPS.
Proof.
  unfold __get_x_forwarded_for. destruct (truthy _); [|discriminate].
  intros E. now apply first_allowed_allowed in E.
Qed.

(** ** The handler *)

Section Properties.
Context `{Collaborators}.

Lemma not_allowed_empty : "" ∉ ALLOWED_IPS.
Proof. rewrite elem_of_ALLOWED_IPS. intuition discriminate. Qed.

Lemma __get_x_forwarded_for_Some (request : Request) (ip : string) :
  __get_x_forwarded_for (headers request) = Some ip <->
  exists xff pre post,
    headers_get (headers request) "X-Forwarded-For" = Some xff /\
    split ", " xff = (pre ++ ip :: post)%list /\
    Forall (fun c => c ∉ ALLOWED_IPS) pre /\ ip ∈ ALLOWED_IPS.
Proof.
  unfold __get_x_forwarded_for.
  destruct (headers_get (headers request) "X-Forwarded-For") as [xff|] eqn:Hh.
  - destruct xff as [|c xff]; cbn [truthy format_opt].
    + split; [discriminate|].
      intros (xff & pre & post & [= <-] & Hs & Hpre & Hip). exfalso.
      change (split ", " "") with [""] in Hs.
      destruct pre as [|? [|? ?]]; simpl in Hs; simplify_eq.
      now apply not_allowed_empty.
    + rewrite first_allowed_Some. split.
      * intros (pre & post & ? & ? & ?). eauto 8.
      * intros (? & pre & post & [= <-] & ? & ? & ?). eauto.
  - cbn [truthy]. split; [discriminate|]. intros (? & ? & ? & ? & _). discriminate.
Qed.

Lemma __get_x_forwarded_for_None (request : Request) :
  __get_x_forwarded_for (headers request) = None <->
  (headers_get (headers request) "X-Forwarded-For" = None
   \/ headers_get (headers request) "X-Forwarded-For" = Some ""
   \/ exists xff, headers_get (headers request) "X-Forwarded-For" = Some xff /\
                  Forall (fun c => c ∉ ALLOWED_IPS) (split ", " xff)).
Proof.
  unfold __get_x_forwarded_for.
  destruct (headers_get (headers request) "X-Forwarded-For") as [xff|] eqn:Hh.
  - destruct xff as [|c xff]; cbn [truthy format_opt].
    + intuition.
    + rewrite first_allowed_None. split.
      * eauto.
      * intros [?|[?|(? & [= <-] & ?)]]; [discriminate|discriminate|assumption].
  - cbn [truthy]. intuition.
Qed.

Lemma __get_client_ip_forwarded (request : Request) (ip : string) (st : State) :
  __get_x_forwarded_for (headers request) = Some ip ->
  __get_client_ip request st = (Ok ip, st).
Proof.
  intros E. unfold __get_client_ip. rewrite E.
  rewrite (allowed_truthy ip); [reflexivity|].
  now apply __get_x_forwarded_for_allowed in E.
Qed.

Lemma __get_client_ip_direct (request : Request) (st : State) :
  __get_x_forwarded_for (headers request) = None ->
  __get_client_ip request st = direct_peer_evaluation request st.
Proof.
  intros E. unfold __get_client_ip, direct_peer_evaluation. rewrite E.
  cbn [truthy]. case_bool_decide as Hp.
  - rewrite decide_True by done. reflexivity.
  - rewrite decide_False by done. reflexivity.
Qed.

(** C3. When the [X-Forwarded-For] header, split on [", "], holds an
    allowed candidate, the resolver returns the first allowed candidate in
    header order, whatever the peer address; when the header is absent,
    empty, or holds no allowed candidate, the resolver does what the
    direct-peer evaluation does. *)
Theorem C3_forwarded_for_first_allowed (request : Request) (st : State) :
  (forall xff pre ip post,
      headers_get (headers request) "X-Forwarded-For" = Some xff ->
      split ", " xff = (pre ++ ip :: post)%list ->
      Forall (fun c => c ∉ ALLOWED_IPS) pre ->
      ip ∈ ALLOWED_IPS ->
      __get_client_ip request st = (Ok ip, st))
  /\
  (headers_get (headers request) "X-Forwarded-For" = None
   \/ headers_get (headers request) "X-Forwarded-For" = Some ""
   \/ (exists xff, headers_get (headers request) "X-Forwarded-For" = Some xff /\
                   Forall (fun c => c ∉ ALLOWED_IPS) (split ", " xff)) ->
   __get_client_ip request st = direct_peer_evaluation request st).
Proof.
  split.
  - intros xff pre ip post Hh Hs Hpre Hip.
    apply __get_client_ip_forwarded, __get_x_forwarded_for_Some. eauto 8.
  - intros Hno. now apply __get_client_ip_direct, __get_x_forwarded_for_None.
Qed.


Lemma forwarding_yields_iff (request : Request) :
  (exists ip, forwarding_yields request ip) <->
  (exists ip, __get_x_forwarded_for (headers request) = Some ip).
Proof.
  split.
  - intros (ip & xff & Hh & Hin & Hip).
    unfold __get_x_forwarded_for. rewrite Hh.
    destruct xff as [|c xff]; cbn [truthy format_opt].
    + change (split ", " "") with [""] in Hin.
      apply list_elem_of_singleton in Hin as ->. now apply not_allowed_empty in Hip.
    + eapply first_allowed_exists; eauto.
  - intros [ip E].
    apply __get_x_forwarded_for_Some in E as (xff & pre & post & Hh & Hs & _ & Hip).
    exists ip, xff. repeat split; [done| |done].
    rewrite Hs. apply elem_of_app. right. apply elem_of_cons. now left.
Qed.

Lemma _handle_webhook_forbidden (self : WebhookManager) (request : Request)
  (st st' : State) (e : exn) :
  __get_client_ip request st = (Raise e, st') ->
  _handle_webhook self request st = (Raise e, st').
Proof. intros E. unfold _handle_webhook, bind. now rewrite E. Qed.

(** C4. The resolver returns normally exactly when the forwarding header
    yields an allowed candidate or the peer address is in the allow-list;
    whatever it returns is in the allow-list; otherwise it raises the 403
    [IP not allowed] exception, and the handler stops there: it raises the
    same exception, having only logged the rejection. *)
Theorem C4_resolver_admits_only_allowed (self : WebhookManager)
  (request : Request) (st : State) :
  ((exists ip, fst (__get_client_ip request st) = Ok ip) <->
   ((exists ip, forwarding_yields request ip)
    \/ client_host request ∈ ALLOWED_IPS))
  /\ (forall ip, fst (__get_client_ip request st) = Ok ip -> ip ∈ ALLOWED_IPS)
  /\ (~ ((exists ip, forwarding_yields request ip)
         \/ client_host request ∈ ALLOWED_IPS) ->
      let st' := logged ["IP " ++ client_host request ++ " not allowed"] st in
      __get_client_ip request st = (Raise (HTTPException 403 "IP not allowed"), st')
      /\ _handle_webhook self request st
         = (Raise (HTTPException 403 "IP not allowed"), st')
      /\ fastapi_response (Raise (HTTPException 403 "IP not allowed"))
         = {| status := 403;
              content := JsonContent (JObj [("detail", JStr "IP not allowed")]) |}).
Proof.
  rewrite forwarding_yields_iff.
  destruct (__get_x_forwarded_for (headers request)) as [ip|] eqn:E.
  - rewrite (__get_client_ip_forwarded request ip st E). cbn [fst].
    split; [|split].
    + split; eauto.
    + intros ? [= <-]. now apply __get_x_forwarded_for_allowed in E.
    + intros Hno. exfalso. apply Hno. eauto.
  - assert (Hd := __get_client_ip_direct request st E).
    unfold direct_peer_evaluation in Hd.
    destruct (decide (client_host request ∈ ALLOWED_IPS)) as [Hp|Hp].
    + rewrite Hd. cbn [fst]. split; [|split].
      * split; eauto.
      * now intros ? [= <-].
      * intros Hno. exfalso. apply Hno. eauto.
    + split; [|split].
      * rewrite Hd. cbn [fst]. split.
        -- intros [? ?]. discriminate.
        -- intros [[? ?]|?]; [discriminate|contradiction].
      * rewrite Hd. cbn [fst]. discriminate.
      * intros _. cbn zeta. repeat split; [exact Hd|].
        now apply _handle_webhook_forbidden.
Qed.


(** C9. Registering a handler through the success decorator returns the
    handler itself and appends it at the end of the success list, leaving
    the failure list (and every other attribute) as it was; the failure
    decorator does the same on the failure list; registering the same
    handler twice appends it twice. *)
Theorem C9_registration_appends (self : WebhookManager) (func : Callback) :
  let on_success := successful_handler func self in
  let on_failure := failed_handler func self in
  (fst on_success = func
   /\ successful_callbacks (snd on_success)
      = (successful_callbacks self ++ [func])%list
   /\ failed_callbacks (snd on_success) = failed_callbacks self)
  /\ (fst on_failure = func
      /\ failed_callbacks (snd on_failure)
         = (failed_callbacks self ++ [func])%list
      /\ successful_callbacks (snd on_failure) = successful_callbacks self)
  /\ (successful_callbacks (snd (successful_handler func (snd on_success)))
      = (successful_callbacks self ++ [func; func])%list
      /\ failed_callbacks (snd (failed_handler func (snd on_failure)))
         = (failed_callbacks self ++ [func; func])%list)
  /\ (forall after, after = snd on_success \/ after = snd on_failure ->
        host after = host self /\ port after = port self
        /\ api_key after = api_key self
        /\ webhook_endpoint after = webhook_endpoint self
        /\ client after = client self).
Proof.
  cbn zeta. unfold successful_handler, failed_handler.
  cbn [fst snd successful_callbacks failed_callbacks].
  rewrite <- !app_assoc. cbn [app].
  split; [auto|]. split; [auto|]. split; [auto|].
  intros after [-> | ->]; repeat split.
Qed.

(** C10 (amended). For every non-empty endpoint string the constructor
    returns a manager whose stored endpoint is the given string when it
    starts with a slash, the given string with a slash put in front
    otherwise; either way the stored endpoint starts with a slash. *)
Theorem C10_endpoint_normalised (client : Client) (host : string) (port : Z)
  (endpoint : string) :
  endpoint <> "" ->
  exists self,
    __init__ client host port endpoint = Ok self
    /\ (String.get 0 endpoint <> Some "/"%char ->
        webhook_endpoint self = "/" ++ endpoint)
    /\ (String.get 0 endpoint = Some "/"%char ->
        webhook_endpoint self = endpoint)
    /\ String.get 0 (webhook_endpoint self) = Some "/"%char.
Proof.
  intros Hne. destruct endpoint as [|c rest]; [contradiction|].
  unfold __init__. cbn [str_getitem0]. eexists. split; [reflexivity|].
  cbn [webhook_endpoint String.get].
  destruct (Ascii.eqb c "/") eqn:E; cbn [negb].
  - apply Ascii.eqb_eq in E. subst c. repeat split; try reflexivity.
    intros Hc. now contradiction Hc.
  - apply Ascii.eqb_neq in E. repeat split; try reflexivity.
    intros [= ->]. contradiction.
Qed.

(** *** Stepping through the handler *)

Lemma __get_client_ip_Ok (request : Request) (ip : string) (st : State) :
  fst (__get_client_ip request st) = Ok ip -> passes_ip_gate request ip.
Proof.
  intros E st'.
  destruct (__get_x_forwarded_for (headers request)) as [ip'|] eqn:Hx.
  - rewrite (__get_client_ip_forwarded _ _ st Hx) in E.
    injection E as <-. now apply __get_client_ip_forwarded.
  - rewrite (__get_client_ip_direct _ st Hx) in E.
    rewrite (__get_client_ip_direct _ st' Hx).
    unfold direct_peer_evaluation in *.
    destruct (decide (client_host request ∈ ALLOWED_IPS)); [|discriminate].
    injection E as <-. reflexivity.
Qed.

Lemma expected_signature_b64_ascii (self : WebhookManager) (request : Request) :
  isascii (expected_signature_b64 self request) = true.
Proof. apply isascii_b64. Qed.

Lemma passes_signature_gate_iff (self : WebhookManager) (request : Request) :
  passes_signature_gate self request <->
  headers_get (headers request) "Walletpay-Signature"
    = Some (expected_signature_b64 self request).
Proof. apply compare_digest_spec, expected_signature_b64_ascii. Qed.

(** Past the IP gate and the JSON reader, the handler logs the address and
    reaches the comparison of the signatures. *)
Lemma _handle_webhook_admitted (self : WebhookManager) (request : Request)
  (st : State) (ip : string) :
  passes_ip_gate request ip ->
  let st1 := logged ["Incoming webhook from " ++ ip] st in
  _handle_webhook self request st =
    match json_loads (body request) with
    | None => (Raise JSONDecodeError, st1)
    | Some data =>
        let signature := headers_get (headers request) "Walletpay-Signature" in
        let expected := expected_signature_b64 self request in
        match compare_digest expected signature with
        | Raise e => (Raise e, st1)
        | Ok false =>
            (Raise (HTTPException 400 "Invalid signature"),
             logged ["Invalid signature. Expected: " ++ expected
                     ++ " Get from header: " ++ format_opt signature] st1)
        | Ok true =>
            match getitem0 data with
            | Raise e => (Raise e, st1)
            | Ok first =>
                match Event_init first with
                | Raise e => (Raise e, st1)
                | Ok event =>
                    if py_eq_str (Event_type event) "ORDER_PAID" then
                      match for_callbacks (successful_callbacks self) event
                              (client self) st1 with
                      | (Ok _, st') =>
                          (Ok (message_dict "Successful event processed!"), st')
                      | (Raise e, st') => (Raise e, st')
                      end
                    else if py_eq_str (Event_type event) "ORDER_FAILED" then
                      match for_callbacks (failed_callbacks self) event
                              (client self) st1 with
                      | (Ok _, st') =>
                          (Ok (message_dict "Failed event processed!"), st')
                      | (Raise e, st') => (Raise e, st')
                      end
                    else
                      (Ok (message_dict "Webhook received with unknown status!"),
                       st1)
                end
            end
        end
    end.
Proof.
  intros Hip. cbn zeta. unfold _handle_webhook, bind at 1.
  rewrite (Hip st). unfold bind at 1. cbn [logging_info].
  unfold logged, request_json, bind at 1, lift, ret, raise.
  destruct (json_loads (body request)) as [data|]; [|reflexivity].
  unfold bind at 1.
  destruct (compare_digest _ _) as [[|]|e]; cbn [negb]; [| reflexivity | reflexivity].
  unfold bind at 1. destruct (getitem0 data) as [first|e]; [|reflexivity].
  unfold bind at 1. destruct (Event_init first) as [event|e]; [|reflexivity].
  destruct (py_eq_str (Event_type event) "ORDER_PAID").
  - unfold bind. now destruct (for_callbacks _ _ _ _) as [[[]|e] st'].
  - destruct (py_eq_str (Event_type event) "ORDER_FAILED"); [|reflexivity].
    unfold bind. now destruct (for_callbacks _ _ _ _) as [[[]|e] st'].
Qed.

(** *** The callback loop *)

Lemma for_callbacks_complete (callbacks : list Callback) (event : Event)
  (cl : Client) (st : State) :
  all_complete callbacks event cl (world st) ->
  for_callbacks callbacks event cl st =
    (Ok tt, {| world := world_after callbacks event cl (world st);
               log := log st;
               awaited := (awaited st ++ callbacks)%list |}).
Proof.
  revert st. induction callbacks as [|cb rest IH]; intros st Hall.
  - cbn. rewrite app_nil_r. now destruct st.
  - cbn [for_callbacks all_complete world_after] in *.
    unfold bind, await_callback.
    destruct (cb event cl (world st)) as [[[]|e] w'] eqn:E; [|contradiction].
    cbn [snd]. rewrite IH by exact Hall. cbn [world log awaited].
    now rewrite <- app_assoc.
Qed.

(** Whatever happens, the callbacks awaited by the loop are an initial
    segment of the list, in list order, and the log is left alone; when
    the loop raises, the segment ends with the callback that raised. *)
Lemma for_callbacks_prefix (callbacks : list Callback) (event : Event)
  (cl : Client) (st : State) :
  exists done_ rest,
    callbacks = (done_ ++ rest)%list
    /\ awaited (snd (for_callbacks callbacks event cl st))
       = (awaited st ++ done_)%list
    /\ log (snd (for_callbacks callbacks event cl st)) = log st
    /\ (fst (for_callbacks callbacks event cl st) = Ok tt -> rest = []).
Proof.
  revert st. induction callbacks as [|cb rest IH]; intros st.
  - exists [], []. cbn. rewrite app_nil_r. auto.
  - cbn [for_callbacks]. unfold bind, await_callback.
    destruct (cb event cl (world st)) as [[[]|e] w'] eqn:E.
    + destruct (IH {| world := w'; log := log st;
                      awaited := (awaited st ++ [cb])%list |})
        as (d & r & -> & Ha & Hl & Hok).
      exists (cb :: d), r. cbn [awaited log] in *.
      rewrite Ha, Hl, <- app_assoc. auto.
    + exists [cb], rest. cbn. repeat split; discriminate.
Qed.

Lemma py_eq_str_true (v : json) (lit : string) :
  py_eq_str v lit = true <-> v = JStr lit.
Proof.
  destruct v; cbn; try (split; discriminate).
  rewrite String.eqb_eq. split; congruence.
Qed.

Lemma py_eq_str_false (v : json) (lit : string) :
  py_eq_str v lit = false <-> v <> JStr lit.
Proof.
  rewrite <- py_eq_str_true. destruct (py_eq_str v lit); split; congruence.
Qed.








(** C1 (amended). For a request that passes the IP and signature gates
    and whose event was parsed: if the event type is [ORDER_PAID] and every
    success callback completes when its turn comes, the handler awaits the
    success callbacks once each, in registration order, and returns the
    [Successful event processed!] message; likewise with [ORDER_FAILED],
    the failure callbacks and [Failed event processed!]; for any other
    type it awaits no callback and returns
    [Webhook received with unknown status!]. *)
Theorem C1_dispatch_by_event_type (self : WebhookManager) (request : Request)
  (st : State) (ip : string) (data first : json) (event : Event) :
  passes_ip_gate request ip ->
  passes_signature_gate self request ->
  json_loads (body request) = Some data ->
  getitem0 data = Ok first ->
  Event_init first = Ok event ->
  (Event_type event = JStr "ORDER_PAID" ->
   all_complete (successful_callbacks self) event (client self) (world st) ->
   exists st',
     _handle_webhook self request st
       = (Ok (JObj [("message", JStr "Successful event processed!")]), st')
     /\ awaited st' = (awaited st ++ successful_callbacks self)%list
     /\ world st'
        = world_after (successful_callbacks self) event (client self) (world st))
  /\ (Event_type event = JStr "ORDER_FAILED" ->
      all_complete (failed_callbacks self) event (client self) (world st) ->
      exists st',
        _handle_webhook self request st
          = (Ok (JObj [("message", JStr "Failed event processed!")]), st')
        /\ awaited st' = (awaited st ++ failed_callbacks self)%list
        /\ world st'
           = world_after (failed_callbacks self) event (client self) (world st))
  /\ (Event_type event <> JStr "ORDER_PAID" ->
      Event_type event <> JStr "ORDER_FAILED" ->
      exists st',
        _handle_webhook self request st
          = (Ok (JObj [("message", JStr "Webhook received with unknown status!")]),
             st')
        /\ awaited st' = awaited st
        /\ world st' = world st).
Proof.
  intros Hip Hsig Hdata Hfirst Hevent.
  rewrite (_handle_webhook_admitted self request st ip Hip). cbn zeta.
  rewrite Hdata. unfold passes_signature_gate in Hsig. rewrite Hsig.
  rewrite Hfirst, Hevent. split; [|split].
  - intros Hty Hall. rewrite Hty. cbn [py_eq_str]. rewrite String.eqb_refl.
    rewrite for_callbacks_complete by exact Hall.
    eexists. split; [reflexivity|]. cbn. auto.
  - intros Hty Hall. rewrite Hty. cbn [py_eq_str].
    change ("ORDER_FAILED" =? "ORDER_PAID")%string with false.
    rewrite String.eqb_refl.
    rewrite for_callbacks_complete by exact Hall.
    eexists. split; [reflexivity|]. cbn. auto.
  - intros Hp Hf. apply py_eq_str_false in Hp, Hf. rewrite Hp, Hf.
    eexists. split; [reflexivity|]. cbn. auto.
Qed.

(** C2 (amended). The message that is signed and verified is the HTTP
    method, the path, the [WalletPay-Timestamp] header value and the base64
    encoding of the raw body, joined with dots in that order, where the
    path is the [X-Original-URI] header value when that header is present
    and not empty, and the locally parsed path otherwise; the expected
    signature is the base64 encoding of the HMAC-SHA256 digest of that
    message under the API key, and the gate is passed exactly when the
    [Walletpay-Signature] header holds it. *)
Theorem C2_canonical_message (self : WebhookManager) (request : Request)
  (timestamp : string) :
  headers_get (headers request) "WalletPay-Timestamp" = Some timestamp ->
  let uri := headers_get (headers request) "X-Original-URI" in
  (forall v, uri = Some v -> v <> "" ->
     signed_message request
     = canonical_message (method request) v timestamp (body request))
  /\ (uri = None \/ uri = Some "" ->
      signed_message request
      = canonical_message (method request) (url_path request) timestamp
                          (body request))
  /\ expected_signature_b64 self request
     = signature_of (api_key self) (signed_message request)
  /\ (passes_signature_gate self request <->
      headers_get (headers request) "Walletpay-Signature"
      = Some (signature_of (api_key self) (signed_message request))).
Proof.
  intros Hts. cbn zeta.
  split; [|split; [|split]]; [| |reflexivity|apply passes_signature_gate_iff];
    unfold signed_message, signed_path, canonical_message; rewrite Hts;
    cbn [format_opt String.concat].
  - intros v -> Hv. destruct v as [|c v]; [contradiction|]. reflexivity.
  - intros [-> | ->]; reflexivity.
Qed.

Lemma _handle_webhook_missing_signature (self : WebhookManager)
  (request : Request) (st : State) (ip : string) (data : json) :
  passes_ip_gate request ip ->
  json_loads (body request) = Some data ->
  headers_get (headers request) "Walletpay-Signature" = None ->
  _handle_webhook self request st
  = (Raise TypeError, logged ["Incoming webhook from " ++ ip] st).
Proof.
  intros Hip Hdata Hsig.
  rewrite (_handle_webhook_admitted self request st ip Hip). cbn zeta.
  now rewrite Hdata, Hsig.
Qed.

(** C6 (amended). For a request that passes the IP gate: when the body is
    not JSON the handler raises the JSON reader's error, before looking at
    the signature; when the body reads as an empty array and the signature
    gate is passed, it raises [IndexError]. In both cases the handler does
    not turn the error into an [HTTPException], no callback is awaited and
    the application state is untouched; the framework answers 500 with a
    plain-text body. *)
Theorem C6_malformed_payload_propagates (self : WebhookManager)
  (request : Request) (st : State) (ip : string) :
  passes_ip_gate request ip ->
  let st1 := logged ["Incoming webhook from " ++ ip] st in
  (json_loads (body request) = None ->
   _handle_webhook self request st = (Raise JSONDecodeError, st1))
  /\ (json_loads (body request) = Some (JArr []) ->
      passes_signature_gate self request ->
      _handle_webhook self request st = (Raise IndexError, st1))
  /\ awaited st1 = awaited st
  /\ world st1 = world st
  /\ fastapi_response (Raise JSONDecodeError)
     = {| status := 500; content := TextContent "Internal Server Error" |}
  /\ fastapi_response (Raise IndexError)
     = {| status := 500; content := TextContent "Internal Server Error" |}.
Proof.
  intros Hip. cbn zeta.
  rewrite (_handle_webhook_admitted self request st ip Hip). cbn zeta.
  split; [|split; [|repeat split]].
  - now intros ->.
  - intros -> Hsig. unfold passes_signature_gate in Hsig. now rewrite Hsig.
Qed.

(** C7 (amended). For a request that passes the IP gate and whose
    [Walletpay-Signature] header is not the expected signature: the
    handler always ends with an exception, awaits no callback and leaves
    the application state untouched; and when the body reads as JSON and
    the header is present and ASCII-only, that exception is the 400
    [Invalid signature] one, whatever the payload holds. *)
Theorem C7_invalid_signature_rejected (self : WebhookManager)
  (request : Request) (st : State) (ip : string) :
  passes_ip_gate request ip ->
  headers_get (headers request) "Walletpay-Signature"
    <> Some (expected_signature_b64 self request) ->
  ((exists e, fst (_handle_webhook self request st) = Raise e)
   /\ awaited (snd (_handle_webhook self request st)) = awaited st
   /\ world (snd (_handle_webhook self request st)) = world st)
  /\ (forall data provided,
        json_loads (body request) = Some data ->
        headers_get (headers request) "Walletpay-Signature" = Some provided ->
        isascii provided = true ->
        _handle_webhook self request st
        = (Raise (HTTPException 400 "Invalid signature"),
           logged ["Incoming webhook from " ++ ip;
                   "Invalid signature. Expected: "
                     ++ expected_signature_b64 self request
                     ++ " Get from header: " ++ provided] st)
        /\ fastapi_response (Raise (HTTPException 400 "Invalid signature"))
           = {| status := 400;
                content := JsonContent (JObj [("detail", JStr "Invalid signature")]) |}).
Proof.
  intros Hip Hne.
  rewrite (_handle_webhook_admitted self request st ip Hip). cbn zeta.
  rewrite (compare_digest_cases _ _ (expected_signature_b64_ascii self request)).
  split.
  - destruct (json_loads (body request)) as [data|]; [|cbn; eauto].
    destruct (headers_get (headers request) "Walletpay-Signature")
      as [provided|]; [|cbn; eauto].
    destruct (isascii provided); [|cbn; eauto].
    destruct (String.eqb_spec (expected_signature_b64 self request) provided)
      as [E|E]; [|cbn; eauto].
    exfalso. apply Hne. now rewrite E.
  - intros data provided -> Hsig Hascii. rewrite Hsig in Hne |- *.
    rewrite Hascii.
    destruct (String.eqb_spec (expected_signature_b64 self request) provided)
      as [E|E]; [exfalso; apply Hne; now rewrite E|].
    split; [|reflexivity]. unfold logged. cbn [world log awaited format_opt].
    now rewrite <- app_assoc.
Qed.

(** *** Construction and registration *)

(** X1. Normalising an endpoint twice is the same as normalising it once:
    a manager built from the endpoint stored by another manager stores
    that same endpoint. *)
Theorem X1_endpoint_normalisation_idempotent (client client' : Client)
  (host host' : string) (port port' : Z) (endpoint : string)
  (self : WebhookManager) :
  __init__ client host port endpoint = Ok self ->
  exists self',
    __init__ client' host' port' (webhook_endpoint self) = Ok self'
    /\ webhook_endpoint self' = webhook_endpoint self.
Proof.
  unfold __init__. destruct endpoint as [|c rest]; cbn [str_getitem0]; [discriminate|].
  intros [= <-]. cbn [webhook_endpoint].
  destruct (Ascii.eqb c "/") eqn:E; cbn [negb].
  - apply Ascii.eqb_eq in E. subst c. cbn. eauto.
  - cbn. eauto.
Qed.

Lemma register_all_app (rs rs' : list Registration) (self : WebhookManager) :
  register_all (rs ++ rs') self = register_all rs' (register_all rs self).
Proof. unfold register_all. now rewrite fold_left_app. Qed.

(** X2. After any sequence of registrations the success list is the old
    success list followed by the functions registered for success, in the
    order of registration, the failure list likewise, and the other
    attributes are those of the manager before: nothing is removed or
    reordered, and the two kinds never mix. *)
Theorem X2_registrations_accumulate_in_order (rs : list Registration)
  (self : WebhookManager) :
  successful_callbacks (register_all rs self)
    = (successful_callbacks self ++ success_functions rs)%list
  /\ failed_callbacks (register_all rs self)
     = (failed_callbacks self ++ failure_functions rs)%list
  /\ host (register_all rs self) = host self
  /\ port (register_all rs self) = port self
  /\ api_key (register_all rs self) = api_key self
  /\ webhook_endpoint (register_all rs self) = webhook_endpoint self
  /\ client (register_all rs self) = client self.
Proof.
  revert self. induction rs as [|r rs IH]; intros self.
  - cbn. now rewrite !app_nil_r.
  - change (register_all (r :: rs) self)
      with (register_all rs (register r self)).
    destruct (IH (register r self)) as (Hs & Hf & Hh & Hp & Hk & He & Hc).
    rewrite Hs, Hf, Hh, Hp, Hk, He, Hc.
    destruct r as [func|func]; cbn; rewrite <- ?app_assoc; cbn;
      rewrite ?app_nil_r; auto 10.
Qed.

(** *** Dispatch: what the handler does to the callbacks *)

Lemma __get_client_ip_cases (request : Request) (st : State) :
  (exists ip, ip ∈ ALLOWED_IPS /\ passes_ip_gate request ip)
  \/ __get_client_ip request st
     = (Raise (HTTPException 403 "IP not allowed"),
        logged ["IP " ++ client_host request ++ " not allowed"] st).
Proof.
  destruct (__get_x_forwarded_for (headers request)) as [ip|] eqn:E.
  - left. exists ip. split.
    + now apply __get_x_forwarded_for_allowed in E.
    + intros st'. now apply __get_client_ip_forwarded.
  - rewrite (__get_client_ip_direct request st E).
    unfold direct_peer_evaluation.
    destruct (decide (client_host request ∈ ALLOWED_IPS)) as [Hp|Hp].
    + left. exists (client_host request). split; [done|].
      intros st'. rewrite (__get_client_ip_direct request st' E).
      unfold direct_peer_evaluation. now rewrite decide_True.
    + now right.
Qed.

Lemma all_complete_app (l l' : list Callback) (event : Event) (cl : Client)
  (w : World) :
  all_complete (l ++ l') event cl w <->
  all_complete l event cl w /\ all_complete l' event cl (world_after l event cl w).
Proof.
  revert w. induction l as [|cb l IH]; intros w; cbn.
  - tauto.
  - destruct (cb event cl w) as [[[]|e] w']; cbn; [apply IH | tauto].
Qed.

Lemma world_after_app (l l' : list Callback) (event : Event) (cl : Client)
  (w : World) :
  world_after (l ++ l') event cl w
  = world_after l' event cl (world_after l event cl w).
Proof. revert w. induction l as [|cb l IH]; intros w; cbn; auto. Qed.

(** The loop stops at the first callback that raises. *)
Lemma for_callbacks_raise (pre post : list Callback) (cb : Callback)
  (event : Event) (cl : Client) (st : State) (e : exn) (w' : World) :
  all_complete pre event cl (world st) ->
  cb event cl (world_after pre event cl (world st)) = (Raise e, w') ->
  for_callbacks (pre ++ cb :: post) event cl st
  = (Raise e, {| world := w'; log := log st;
                 awaited := (awaited st ++ pre ++ [cb])%list |}).
Proof.
  revert st. induction pre as [|c pre IH]; intros st Hall Hcb.
  - cbn in *. unfold bind, await_callback. now rewrite Hcb.
  - cbn [app for_callbacks all_complete world_after] in *.
    unfold bind, await_callback.
    destruct (c event cl (world st)) as [[[]|e'] w1] eqn:E; [|contradiction].
    cbn [snd] in Hcb.
    rewrite (IH {| world := w1; log := log st;
                   awaited := (awaited st ++ [c])%list |}) by assumption.
    cbn [world log awaited]. now rewrite <- app_assoc.
Qed.

(** What the loop leaves behind, whether it completes or not. *)
Lemma for_callbacks_trace (callbacks : list Callback) (event : Event)
  (cl : Client) (st : State) :
  exists done_ rest,
    callbacks = (done_ ++ rest)%list
    /\ awaited (snd (for_callbacks callbacks event cl st))
       = (awaited st ++ done_)%list
    /\ log (snd (for_callbacks callbacks event cl st)) = log st
    /\ (done_ = [] -> world (snd (for_callbacks callbacks event cl st)) = world st).
Proof.
  revert st. induction callbacks as [|cb rest IH]; intros st.
  - exists [], []. cbn. rewrite app_nil_r. auto.
  - cbn [for_callbacks]. unfold bind, await_callback.
    destruct (cb event cl (world st)) as [[[]|e] w'] eqn:E.
    + destruct (IH {| world := w'; log := log st;
                      awaited := (awaited st ++ [cb])%list |})
        as (d & r & -> & Ha & Hl & _).
      exists (cb :: d), r. cbn [awaited log] in *.
      rewrite Ha, Hl, <- app_assoc. repeat split; auto. discriminate.
    + exists [cb], rest. cbn. repeat split; discriminate.
Qed.

(** X4. Whatever the request and whatever the callbacks do, the callbacks
    the handler awaits are an initial segment of the success list or of the
    failure list, in list order: never a function that was not registered,
    no entry of the list more than once, never both lists. The
    log only grows, and when no callback was awaited the application state
    is untouched. *)
Theorem X4_awaited_is_initial_segment (self : WebhookManager)
  (request : Request) (st : State) :
  exists done_ rest records,
    (successful_callbacks self = (done_ ++ rest)%list
     \/ failed_callbacks self = (done_ ++ rest)%list)
    /\ awaited (snd (_handle_webhook self request st))
       = (awaited st ++ done_)%list
    /\ log (snd (_handle_webhook self request st)) = (log st ++ records)%list
    /\ (done_ = [] -> world (snd (_handle_webhook self request st)) = world st).
Proof.
  assert (Hnone : forall (A : Type) (x : result A) (recs : list string),
             exists done_ rest records,
               (successful_callbacks self = (done_ ++ rest)%list
                \/ failed_callbacks self = (done_ ++ rest)%list)
               /\ awaited (snd (x, logged recs st)) = (awaited st ++ done_)%list
               /\ log (snd (x, logged recs st)) = (log st ++ records)%list
               /\ (done_ = [] -> world (snd (x, logged recs st)) = world st)).
  { intros A x recs. exists [], (successful_callbacks self), recs.
    cbn. rewrite app_nil_r. auto. }
  destruct (__get_client_ip_cases request st) as [(ip & _ & Hip)|Hrej].
  - rewrite (_handle_webhook_admitted self request st ip Hip). cbn zeta.
    destruct (json_loads (body request)) as [data|]; [|apply Hnone].
    destruct (compare_digest _ _) as [[|]|e]; [| |apply Hnone].
    + destruct (getitem0 data) as [first|e]; [|apply Hnone].
      destruct (Event_init first) as [event|e]; [|apply Hnone].
      set (st1 := logged ["Incoming webhook from " ++ ip] st).
      destruct (py_eq_str (Event_type event) "ORDER_PAID").
      * destruct (for_callbacks_trace (successful_callbacks self) event
                    (client self) st1) as (d & r & Hl & Ha & Hlog & Hw).
        exists d, r, ["Incoming webhook from " ++ ip].
        destruct (for_callbacks _ _ _ _) as [[[]|e] st']; cbn [snd] in *;
          rewrite Ha, Hlog; repeat split; auto.
      * destruct (py_eq_str (Event_type event) "ORDER_FAILED"); [|apply Hnone].
        destruct (for_callbacks_trace (failed_callbacks self) event
                    (client self) st1) as (d & r & Hl & Ha & Hlog & Hw).
        exists d, r, ["Incoming webhook from " ++ ip].
        destruct (for_callbacks _ _ _ _) as [[[]|e] st']; cbn [snd] in *;
          rewrite Ha, Hlog; repeat split; auto.
    + unfold logged. cbn [snd world log awaited]. rewrite <- app_assoc.
      exists [], (successful_callbacks self). eexists.
      rewrite app_nil_r. auto.
  - rewrite (_handle_webhook_forbidden self request st _ _ Hrej). apply Hnone.
Qed.

(** X5. The handler returns a message, awaits a callback or changes the
    application state only for a request that passed every gate: the
    resolved address is in the allow-list, the body read as JSON, the
    [Walletpay-Signature] header holds exactly the expected signature, and
    an event was built from the first element. A returned message is one
    of the three messages, in keeping with the event type. *)
Theorem X5_effects_only_past_the_gates (self : WebhookManager)
  (request : Request) (st : State) :
  (exists d, fst (_handle_webhook self request st) = Ok d)
  \/ awaited (snd (_handle_webhook self request st)) <> awaited st
  \/ world (snd (_handle_webhook self request st)) <> world st ->
  exists ip data first event,
    passes_ip_gate request ip
    /\ ip ∈ ALLOWED_IPS
    /\ json_loads (body request) = Some data
    /\ headers_get (headers request) "Walletpay-Signature"
       = Some (expected_signature_b64 self request)
    /\ getitem0 data = Ok first
    /\ Event_init first = Ok event
    /\ (forall d, fst (_handle_webhook self request st) = Ok d ->
          (d = JObj [("message", JStr "Successful event processed!")]
           /\ Event_type event = JStr "ORDER_PAID")
          \/ (d = JObj [("message", JStr "Failed event processed!")]
              /\ Event_type event = JStr "ORDER_FAILED")
          \/ (d = JObj [("message", JStr "Webhook received with unknown status!")]
              /\ Event_type event <> JStr "ORDER_PAID"
              /\ Event_type event <> JStr "ORDER_FAILED")).
Proof.
  assert (Hnone : forall (e : exn) (recs : list string),
             (exists d, fst (Raise e : result json, logged recs st) = Ok d)
             \/ awaited (snd (Raise e : result json, logged recs st)) <> awaited st
             \/ world (snd (Raise e : result json, logged recs st)) <> world st ->
             False).
  { intros e recs [[d Hd]|[Hd|Hd]]; cbn in Hd; [discriminate|now apply Hd..]. }
  destruct (__get_client_ip_cases request st) as [(ip & Hin & Hip)|Hrej].
  - rewrite (_handle_webhook_admitted self request st ip Hip). cbn zeta.
    destruct (json_loads (body request)) as [data|];
      [|intros Hb; now apply Hnone in Hb].
    destruct (compare_digest _ _) as [[|]|e] eqn:Hcmp;
      [| |intros Hb; now apply Hnone in Hb].
    + apply (compare_digest_spec _ _ (expected_signature_b64_ascii self request))
        in Hcmp.
      destruct (getitem0 data) as [first|e] eqn:Hfirst;
        [|intros Hb; now apply Hnone in Hb].
      destruct (Event_init first) as [event|e] eqn:Hevent;
        [|intros Hb; now apply Hnone in Hb].
      intros _. exists ip, data, first, event.
      do 6 (split; [solve [auto]|]).
      destruct (py_eq_str (Event_type event) "ORDER_PAID") eqn:Hp.
      * apply py_eq_str_true in Hp.
        destruct (for_callbacks (successful_callbacks self) event (client self)
                    (logged ["Incoming webhook from " ++ ip] st))
          as [[[]|e] st']; cbn [fst]; intros d [= <-]. auto.
      * apply py_eq_str_false in Hp.
        destruct (py_eq_str (Event_type event) "ORDER_FAILED") eqn:Hf.
        -- apply py_eq_str_true in Hf.
           destruct (for_callbacks (failed_callbacks self) event (client self)
                       (logged ["Incoming webhook from " ++ ip] st))
             as [[[]|e] st']; cbn [fst]; intros d [= <-]. auto.
        -- apply py_eq_str_false in Hf. cbn [fst]. intros d [= <-]. auto 10.
    + intros Hb. exfalso. unfold logged at 1 2 3 in Hb. cbn in Hb.
      destruct Hb as [[d Hd]|[Hd|Hd]]; [discriminate|now apply Hd..].
  - rewrite (_handle_webhook_forbidden self request st _ _ Hrej).
    intros Hb. now apply Hnone in Hb.
Qed.

Lemma _handle_webhook_dispatch (self : WebhookManager) (request : Request)
  (st : State) (ip : string) (data first : json) (event : Event) :
  passes_ip_gate request ip ->
  passes_signature_gate self request ->
  json_loads (body request) = Some data ->
  getitem0 data = Ok first ->
  Event_init first = Ok event ->
  let st1 := logged ["Incoming webhook from " ++ ip] st in
  (Event_type event = JStr "ORDER_PAID" ->
   _handle_webhook self request st =
     match for_callbacks (successful_callbacks self) event (client self) st1 with
     | (Ok _, st') => (Ok (message_dict "Successful event processed!"), st')
     | (Raise e, st') => (Raise e, st')
     end)
  /\ (Event_type event = JStr "ORDER_FAILED" ->
      _handle_webhook self request st =
        match for_callbacks (failed_callbacks self) event (client self) st1 with
        | (Ok _, st') => (Ok (message_dict "Failed event processed!"), st')
        | (Raise e, st') => (Raise e, st')
        end).
Proof.
  intros Hip Hsig Hdata Hfirst Hevent.
  rewrite (_handle_webhook_admitted self request st ip Hip). cbn zeta.
  unfold passes_signature_gate in Hsig.
  rewrite Hdata, Hsig, Hfirst, Hevent.
  split; intros ->; reflexivity.
Qed.

(** X6. A callback that raises stops the dispatch where it stands: the
    callbacks registered before it have run, once each and in order, it
    was awaited itself, the ones after it are not awaited, what the
    earlier ones did to the application state stays done, and the handler
    raises that very exception instead of returning a message. *)
Theorem X6_raising_callback_stops_dispatch (self : WebhookManager)
  (request : Request) (st : State) (ip : string) (data first : json)
  (event : Event) (pre post : list Callback) (cb : Callback) (e : exn)
  (w' : World) :
  passes_ip_gate request ip ->
  passes_signature_gate self request ->
  json_loads (body request) = Some data ->
  getitem0 data = Ok first ->
  Event_init first = Ok event ->
  (Event_type event = JStr "ORDER_PAID"
   /\ successful_callbacks self = (pre ++ cb :: post)%list)
  \/ (Event_type event = JStr "ORDER_FAILED"
      /\ failed_callbacks self = (pre ++ cb :: post)%list) ->
  all_complete pre event (client self) (world st) ->
  cb event (client self) (world_after pre event (client self) (world st))
    = (Raise e, w') ->
  let record := "Incoming webhook from " ++ ip in
  _handle_webhook self request st
  = (Raise e,
     {| world := w';
        log := (log st ++ [record])%list;
        awaited := (awaited st ++ pre ++ [cb])%list |}).
Proof.
  intros Hip Hsig Hdata Hfirst Hevent Hlist Hall Hcb. cbn zeta.
  destruct (_handle_webhook_dispatch self request st ip data first event
              Hip Hsig Hdata Hfirst Hevent) as [Hpaid Hfailed].
  destruct Hlist as [[Hty Hl]|[Hty Hl]];
    [rewrite (Hpaid Hty) | rewrite (Hfailed Hty)];
    rewrite Hl;
    now rewrite (for_callbacks_raise pre post cb event (client self) _ e w').
Qed.

(** X7. The handler keeps no memory of the requests it has served: a
    request that is accepted is accepted again when it is sent again, and
    the callbacks run again, on the application state the first run left
    behind. *)
Theorem X7_replayed_request_runs_callbacks_again (self : WebhookManager)
  (request : Request) (st : State) (ip : string) (data first : json)
  (event : Event) :
  passes_ip_gate request ip ->
  passes_signature_gate self request ->
  json_loads (body request) = Some data ->
  getitem0 data = Ok first ->
  Event_init first = Ok event ->
  Event_type event = JStr "ORDER_PAID" ->
  all_complete (successful_callbacks self ++ successful_callbacks self)
               event (client self) (world st) ->
  exists st1 st2,
    _handle_webhook self request st
      = (Ok (JObj [("message", JStr "Successful event processed!")]), st1)
    /\ _handle_webhook self request st1
       = (Ok (JObj [("message", JStr "Successful event processed!")]), st2)
    /\ awaited st2
       = (awaited st ++ successful_callbacks self ++ successful_callbacks self)%list
    /\ world st2
       = world_after (successful_callbacks self ++ successful_callbacks self)
                     event (client self) (world st).
Proof.
  intros Hip Hsig Hdata Hfirst Hevent Hty Hall.
  apply all_complete_app in Hall as [Hall1 Hall2].
  pose (record := "Incoming webhook from " ++ ip).
  assert (Hrun : forall s, all_complete (successful_callbacks self) event
                             (client self) (world s) ->
            _handle_webhook self request s
            = (Ok (message_dict "Successful event processed!"),
               {| world := world_after (successful_callbacks self) event
                             (client self) (world s);
                  log := (log s ++ [record])%list;
                  awaited := (awaited s ++ successful_callbacks self)%list |})).
  { intros s Hs.
    rewrite (proj1 (_handle_webhook_dispatch self request s ip data first event
                      Hip Hsig Hdata Hfirst Hevent) Hty).
    now rewrite for_callbacks_complete. }
  eexists. eexists. split; [apply (Hrun st Hall1)|].
  split; [apply Hrun; exact Hall2|].
  cbn [awaited world]. now rewrite world_after_app, <- app_assoc.
Qed.

Lemma register_all_lists (rs : list Registration) (self : WebhookManager) :
  successful_callbacks (register_all rs self)
    = (successful_callbacks self ++ success_functions rs)%list
  /\ failed_callbacks (register_all rs self)
     = (failed_callbacks self ++ failure_functions rs)%list
  /\ api_key (register_all rs self) = api_key self
  /\ client (register_all rs self) = client self.
Proof.
  revert self. induction rs as [|r rs IH]; intros self.
  - cbn. now rewrite !app_nil_r.
  - change (register_all (r :: rs) self)
      with (register_all rs (register r self)).
    destruct (IH (register r self)) as (Hs & Hf & Hk & Hc).
    rewrite Hs, Hf, Hk, Hc.
    destruct r as [func|func]; cbn; rewrite <- ?app_assoc; cbn;
      rewrite ?app_nil_r; auto.
Qed.

(** X3. Construction, registration and dispatch put together: on a
    manager built by the constructor and then decorated, a request signed
    with the key of the client given to the constructor and carrying an
    [ORDER_PAID] event makes the handler await exactly the functions
    registered for success, in the order of their registration, with that
    client as argument; an [ORDER_FAILED] event does the same with the
    functions registered for failure. *)
Theorem X3_registered_functions_are_dispatched (cl : Client)
  (host_ : string) (port_ : Z) (endpoint : string) (rs : list Registration)
  (self0 : WebhookManager) (request : Request) (st : State) (ip : string)
  (data first : json) (event : Event) :
  __init__ cl host_ port_ endpoint = Ok self0 ->
  passes_ip_gate request ip ->
  headers_get (headers request) "Walletpay-Signature"
    = Some (signature_of (Client_api_key cl) (signed_message request)) ->
  json_loads (body request) = Some data ->
  getitem0 data = Ok first ->
  Event_init first = Ok event ->
  (Event_type event = JStr "ORDER_PAID" ->
   all_complete (success_functions rs) event cl (world st) ->
   exists st',
     _handle_webhook (register_all rs self0) request st
       = (Ok (JObj [("message", JStr "Successful event processed!")]), st')
     /\ awaited st' = (awaited st ++ success_functions rs)%list
     /\ world st' = world_after (success_functions rs) event cl (world st))
  /\ (Event_type event = JStr "ORDER_FAILED" ->
      all_complete (failure_functions rs) event cl (world st) ->
      exists st',
        _handle_webhook (register_all rs self0) request st
          = (Ok (JObj [("message", JStr "Failed event processed!")]), st')
        /\ awaited st' = (awaited st ++ failure_functions rs)%list
        /\ world st' = world_after (failure_functions rs) event cl (world st)).
Proof.
  intros Hinit Hip Hsig Hdata Hfirst Hevent.
  destruct (register_all_lists rs self0) as (Hs & Hf & Hk & Hc).
  unfold __init__ in Hinit.
  destruct (str_getitem0 endpoint) as [c|e]; [|discriminate].
  injection Hinit as <-. cbn [successful_callbacks failed_callbacks api_key client]
    in Hs, Hf, Hk, Hc.
  set (self := register_all rs _) in *.
  assert (Hgate : passes_signature_gate self request).
  { apply passes_signature_gate_iff. rewrite Hsig.
    unfold expected_signature_b64, signature_of. now rewrite Hk. }
  destruct (_handle_webhook_dispatch self request st ip data first event
              Hip Hgate Hdata Hfirst Hevent) as [Hpaid Hfailed].
  split; intros Hty Hall.
  - rewrite (Hpaid Hty), Hs, Hc. cbn [app].
    rewrite for_callbacks_complete by exact Hall.
    eexists. split; [reflexivity|]. cbn. auto.
  - rewrite (Hfailed Hty), Hf, Hc. cbn [app].
    rewrite for_callbacks_complete by exact Hall.
    eexists. split; [reflexivity|]. cbn. auto.
Qed.

(** *** Edge cases past the signature gate *)

(** X13. A signed body that is JSON but not a list makes [data[0]] fail
    after the signature was accepted: a JSON object raises [KeyError], a
    number, a boolean or [null] raises [TypeError], and the empty string
    raises [IndexError]. The handler lets the error through, having
    awaited no callback. *)
Theorem X13_payload_that_is_not_a_list (self : WebhookManager)
  (request : Request) (st : State) (ip : string) (data : json) :
  passes_ip_gate request ip ->
  passes_signature_gate self request ->
  json_loads (body request) = Some data ->
  let st1 := logged ["Incoming webhook from " ++ ip] st in
  ((exists fields, data = JObj fields) ->
   _handle_webhook self request st = (Raise KeyError, st1))
  /\ (data = JNull \/ (exists b, data = JBool b) \/ (exists z, data = JInt z)
      \/ (exists x, data = JFloat x) ->
      _handle_webhook self request st = (Raise TypeError, st1))
  /\ (data = JStr "" ->
      _handle_webhook self request st = (Raise IndexError, st1)).
Proof.
  intros Hip Hsig Hdata. cbn zeta.
  rewrite (_handle_webhook_admitted self request st ip Hip). cbn zeta.
  unfold passes_signature_gate in Hsig. rewrite Hdata, Hsig.
  split; [|split].
  - intros [fields ->]. reflexivity.
  - intros [->|[[b ->]|[[z ->]|[x ->]]]]; reflexivity.
  - intros ->. reflexivity.
Qed.

(** X14. When the event constructor raises on the first element of the
    payload, the handler raises that exception unchanged, after the
    signature was accepted and before any callback. *)
Theorem X14_event_constructor_error_propagates (self : WebhookManager)
  (request : Request) (st : State) (ip : string) (data first : json)
  (e : exn) :
  passes_ip_gate request ip ->
  passes_signature_gate self request ->
  json_loads (body request) = Some data ->
  getitem0 data = Ok first ->
  Event_init first = Raise e ->
  _handle_webhook self request st
  = (Raise e, logged ["Incoming webhook from " ++ ip] st).
Proof.
  intros Hip Hsig Hdata Hfirst Hevent.
  rewrite (_handle_webhook_admitted self request st ip Hip). cbn zeta.
  unfold passes_signature_gate in Hsig.
  now rewrite Hdata, Hsig, Hfirst, Hevent.
Qed.

(** X15. A [Walletpay-Signature] header holding a character that is not
    ASCII makes the comparison raise [TypeError]: the handler ends with
    that exception, not with the 400 rejection, and awaits no callback. *)
Theorem X15_non_ascii_signature_raises_type_error (self : WebhookManager)
  (request : Request) (st : State) (ip : string) (data : json)
  (provided : string) :
  passes_ip_gate request ip ->
  json_loads (body request) = Some data ->
  headers_get (headers request) "Walletpay-Signature" = Some provided ->
  isascii provided = false ->
  _handle_webhook self request st
  = (Raise TypeError, logged ["Incoming webhook from " ++ ip] st).
Proof.
  intros Hip Hdata Hsig Hascii.
  rewrite (_handle_webhook_admitted self request st ip Hip). cbn zeta.
  rewrite Hdata, Hsig.
  rewrite (compare_digest_cases _ _ (expected_signature_b64_ascii self request)).
  now rewrite Hascii.
Qed.

(** *** The forwarded-for header as a way in *)

Lemma split_allowed (ip : string) : ip ∈ ALLOWED_IPS -> split ", " ip = [ip].
Proof. rewrite elem_of_ALLOWED_IPS. intros [->|[->| ->]]; reflexivity. Qed.

(** X12. The IP gate trusts the [X-Forwarded-For] header of the request
    itself: any request, from any peer, passes the IP gate once a header
    naming an allowed address is put in front of its headers, and this
    changes neither the message that is signed nor whether the signature
    gate is passed. *)
Theorem X12_forwarded_header_opens_ip_gate (self : WebhookManager)
  (request : Request) (ip peer : string) :
  ip ∈ ALLOWED_IPS ->
  passes_ip_gate (forwarded_as ip peer request) ip
  /\ signed_message (forwarded_as ip peer request) = signed_message request
  /\ (passes_signature_gate self (forwarded_as ip peer request)
      <-> passes_signature_gate self request).
Proof.
  intros Hip. split; [|split].
  - intros st. apply __get_client_ip_forwarded.
    unfold __get_x_forwarded_for. cbn [forwarded_as headers headers_get].
    change (String.eqb "x-forwarded-for" (lower "X-Forwarded-For")) with true.
    cbn match. rewrite (allowed_truthy ip Hip). cbn [format_opt].
    rewrite (split_allowed ip Hip). cbn [first_allowed].
    now rewrite bool_decide_eq_true_2.
  - reflexivity.
  - reflexivity.
Qed.

(** *** The shape of the signed message *)

Lemma append_cons (x : ascii) (a b : string) :
  String x a ++ b = String x (a ++ b).
Proof. reflexivity. Qed.

Lemma append_nil_l (a : string) : "" ++ a = a.
Proof. reflexivity. Qed.

Lemma append_assoc (a b c : string) : (a ++ b) ++ c = a ++ (b ++ c).
Proof.
  induction a as [|x a IH]; [reflexivity|].
  now rewrite !append_cons, IH.
Qed.

(** X8. The fields of the signed message are joined by dots without any
    escaping, so the place where the path ends and the timestamp begins
    is not part of what is signed: a request whose path is [p.a] and
    whose timestamp is [b] has the same signed message, hence the same
    expected signature, as a request whose path is [p] and whose
    timestamp is [a.b]. *)
Theorem X8_field_boundary_is_not_signed (self : WebhookManager)
  (r1 r2 : Request) (p a b : string) :
  method r1 = method r2 ->
  body r1 = body r2 ->
  signed_path r1 = p ++ "." ++ a ->
  headers_get (headers r1) "WalletPay-Timestamp" = Some b ->
  signed_path r2 = p ->
  headers_get (headers r2) "WalletPay-Timestamp" = Some (a ++ "." ++ b) ->
  signed_message r1 = signed_message r2
  /\ expected_signature_b64 self r1 = expected_signature_b64 self r2.
Proof.
  intros Hm Hb Hp1 Ht1 Hp2 Ht2.
  assert (E : signed_message r1 = signed_message r2).
  { unfold signed_message. rewrite Hm, Hb, Hp1, Ht1, Hp2, Ht2.
    cbn [format_opt]. f_equal. f_equal.
    now rewrite !append_assoc. }
  split; [exact E|]. unfold expected_signature_b64. now rewrite E.
Qed.

(** *** base64 loses nothing *)

Lemma lor_mul_pow2_small (x c k : N) :
  (c < 2 ^ k)%N -> N.lor (x * 2 ^ k) c = (x * 2 ^ k + c)%N.
Proof.
  intros Hc.
  assert (Hland : N.land (x * 2 ^ k) c = 0%N).
  { apply N.bits_inj_0. intros n. rewrite N.land_spec.
    destruct (N.lt_ge_cases n k) as [Hn|Hn].
    - now rewrite N.mul_pow2_bits_low.
    - rewrite <- (N.mod_small c (2 ^ k)) by exact Hc.
      rewrite N.mod_pow2_bits_high by exact Hn. apply andb_false_r. }
  now rewrite <- N.lxor_lor, <- N.add_nocarry_lxor.
Qed.

Lemma byte_to_N_lt (b : byte) : (Byte.to_N b < 256)%N.
Proof. pose proof (Byte.to_N_bounded b). lia. Qed.

(** The twenty-four bits of a block, as a number. *)
Lemma block_number (A B C : N) :
  (A < 256 -> B < 256 -> C < 256 ->
   N.lor (N.lor (N.shiftl A 16) (N.shiftl B 8)) C
   = A * 65536 + B * 256 + C)%N.
Proof.
  intros HA HB HC. rewrite !N.shiftl_mul_pow2.
  change (2 ^ 8)%N with 256%N.
  rewrite (lor_mul_pow2_small A (B * 256) 16)
    by (change (2 ^ 16)%N with 65536%N; lia).
  replace (A * 2 ^ 16 + B * 256)%N with ((A * 256 + B) * 2 ^ 8)%N
    by (change (2 ^ 8)%N with 256%N; change (2 ^ 16)%N with 65536%N; lia).
  rewrite lor_mul_pow2_small by (change (2 ^ 8)%N with 256%N; lia).
  change (2 ^ 8)%N with 256%N. lia.
Qed.

(** The four six-bit digits of a number below 2^24. *)
Lemma sextets_of (s1 s2 s3 s4 : N) :
  (s1 < 64 -> s2 < 64 -> s3 < 64 -> s4 < 64 ->
   let n := s1 * 262144 + s2 * 4096 + s3 * 64 + s4 in
   N.land (N.shiftr n 18) 63 = s1 /\ N.land (N.shiftr n 12) 63 = s2
   /\ N.land (N.shiftr n 6) 63 = s3 /\ N.land n 63 = s4)%N.
Proof.
  intros H1 H2 H3 H4 n.
  change 63%N with (N.ones 6). rewrite !N.land_ones, !N.shiftr_div_pow2.
  change (2 ^ 18)%N with 262144%N. change (2 ^ 12)%N with 4096%N.
  change (2 ^ 6)%N with 64%N.
  assert (E1 : (n / 262144 = s1)%N)
    by (symmetry; apply (N.div_unique n 262144 s1 (s2 * 4096 + s3 * 64 + s4));
        subst n; lia).
  assert (E2 : (n / 4096 = s1 * 64 + s2)%N)
    by (symmetry; apply (N.div_unique n 4096 (s1 * 64 + s2) (s3 * 64 + s4));
        subst n; lia).
  assert (E3 : (n / 64 = s1 * 4096 + s2 * 64 + s3)%N)
    by (symmetry; apply (N.div_unique n 64 (s1 * 4096 + s2 * 64 + s3) s4);
        subst n; lia).
  rewrite E1, E2, E3. repeat split.
  - now apply N.mod_small.
  - symmetry. apply (N.mod_unique _ 64 s1); lia.
  - symmetry. apply (N.mod_unique _ 64 (s1 * 64 + s2)); lia.
  - symmetry. apply (N.mod_unique _ 64 (s1 * 4096 + s2 * 64 + s3)); subst n; lia.
Qed.

Ltac euclid x d q r :=
  pose proof (N.div_mod x d ltac:(discriminate));
  pose proof (N.mod_upper_bound x d ltac:(discriminate));
  remember (x / d)%N as q; remember (x mod d)%N as r.

(** The digits of a block in terms of its three bytes. *)
Lemma number_sextets (A B C : N) :
  (A < 256 -> B < 256 -> C < 256 ->
   let n := A * 65536 + B * 256 + C in
   N.land (N.shiftr n 18) 63 = A / 4
   /\ N.land (N.shiftr n 12) 63 = (A mod 4) * 16 + B / 16
   /\ N.land (N.shiftr n 6) 63 = (B mod 16) * 4 + C / 64
   /\ N.land n 63 = C mod 64)%N.
Proof.
  intros HA HB HC n. subst n.
  euclid A 4%N a1 a0. euclid B 16%N b1 b0. euclid C 64%N c1 c0.
  replace (A * 65536 + B * 256 + C)%N
    with (a1 * 262144 + (a0 * 16 + b1) * 4096 + (b0 * 4 + c1) * 64 + c0)%N
    by lia.
  apply sextets_of; lia.
Qed.

(** Three bytes are determined by the digits of their block. *)
Lemma number_sextets_inj (A B C A' B' C' : N) :
  (A < 256 -> B < 256 -> C < 256 -> A' < 256 -> B' < 256 -> C' < 256 ->
   A / 4 = A' / 4 ->
   (A mod 4) * 16 + B / 16 = (A' mod 4) * 16 + B' / 16 ->
   (A = A' /\ B / 16 = B' / 16)
   /\ ((B mod 16) * 4 + C / 64 = (B' mod 16) * 4 + C' / 64 ->
       B = B' /\ C / 64 = C' / 64)
   /\ ((B mod 16) * 4 + C / 64 = (B' mod 16) * 4 + C' / 64 ->
       C mod 64 = C' mod 64 -> B = B' /\ C = C'))%N.
Proof.
  intros HA HB HC HA' HB' HC'.
  euclid A 4%N a1 a0. euclid B 16%N b1 b0. euclid C 64%N c1 c0.
  euclid A' 4%N a1' a0'. euclid B' 16%N b1' b0'. euclid C' 64%N c1' c0'.
  intros E1 E2. repeat split; intros; lia.
Qed.

Lemma b64_index_enc (i : N) : b64_index (Base64.enc i) = Some (N.land i 63).
Proof.
  unfold Base64.enc.
  assert (Hlt : (N.to_nat (N.land i 63) < 64)%nat).
  { assert (N.land i 63 < 64)%N; [|lia].
    change 63%N with (N.ones 6). rewrite N.land_ones.
    apply N.mod_upper_bound. discriminate. }
  rewrite <- (N2Nat.id (N.land i 63)) at 2.
  generalize dependent (N.to_nat (N.land i 63)). intros n Hlt.
  do 64 (destruct n as [|n]; [reflexivity|]). lia.
Qed.

Lemma enc_eq (i j : N) :
  Base64.enc i = Base64.enc j -> N.land i 63 = N.land j 63.
Proof.
  intros E. pose proof (b64_index_enc i) as Hi.
  rewrite E, b64_index_enc in Hi. congruence.
Qed.

Lemma enc_not_pad (i : N) : Base64.enc i <> Base64.pad.
Proof.
  intros E. pose proof (b64_index_enc i) as Hi. rewrite E in Hi. discriminate.
Qed.

(** Equal digits come from equal bytes. *)
Lemma digits_inj (A B C A' B' C' : N) :
  (A < 256 -> B < 256 -> C < 256 -> A' < 256 -> B' < 256 -> C' < 256 ->
   let n := N.lor (N.lor (N.shiftl A 16) (N.shiftl B 8)) C in
   let n' := N.lor (N.lor (N.shiftl A' 16) (N.shiftl B' 8)) C' in
   Base64.enc (N.shiftr n 18) = Base64.enc (N.shiftr n' 18) ->
   Base64.enc (N.shiftr n 12) = Base64.enc (N.shiftr n' 12) ->
   A = A'
   /\ (Base64.enc (N.shiftr n 6) = Base64.enc (N.shiftr n' 6) ->
       C / 64 = C' / 64 -> B = B')
   /\ (Base64.enc (N.shiftr n 6) = Base64.enc (N.shiftr n' 6) ->
       Base64.enc n = Base64.enc n' -> B = B' /\ C = C'))%N.
Proof.
  intros HA HB HC HA' HB' HC' n n' E1 E2.
  apply enc_eq in E1, E2. subst n n'.
  rewrite !block_number in * by assumption.
  destruct (number_sextets A B C HA HB HC) as (D1 & D2 & D3 & D4).
  destruct (number_sextets A' B' C' HA' HB' HC') as (D1' & D2' & D3' & D4').
  cbn zeta in *. rewrite D1, D1' in E1. rewrite D2, D2' in E2.
  destruct (number_sextets_inj A B C A' B' C' HA HB HC HA' HB' HC' E1 E2)
    as ((EA & EB) & H2 & H3).
  split; [exact EA|]. split.
  - intros E3 _. apply enc_eq in E3. rewrite D3, D3' in E3.
    now destruct (H2 E3).
  - intros E3 E4. apply enc_eq in E3, E4.
    rewrite D3, D3' in E3. rewrite D4, D4' in E4. now apply H3.
Qed.

Ltac absurd_pad :=
  match goal with
  | E : Base64.pad = Base64.enc _ |- _ =>
      symmetry in E; now apply enc_not_pad in E
  | E : Base64.enc _ = Base64.pad |- _ => now apply enc_not_pad in E
  end.

Lemma b64encode_inj_upto (n : nat) (s s' : bytes) :
  (length s < n)%nat ->
  Base64.b64encode s = Base64.b64encode s' -> s = s'.
Proof.
  revert s s'. induction n as [|n IH]; intros s s' Hn E; [lia|].
  destruct s as [|a [|b [|c rest]]]; destruct s' as [|a' [|b' [|c' rest']]];
    cbn [Base64.b64encode] in E; cbn zeta in E;
    try discriminate E; try reflexivity.
  - injection E as E1 E2.
    replace (N.shiftl (Byte.to_N a) 16)
      with (N.lor (N.lor (N.shiftl (Byte.to_N a) 16) (N.shiftl 0 8)) 0)
      in E1, E2 by (now rewrite N.shiftl_0_l, !N.lor_0_r).
    replace (N.shiftl (Byte.to_N a') 16)
      with (N.lor (N.lor (N.shiftl (Byte.to_N a') 16) (N.shiftl 0 8)) 0)
      in E1, E2 by (now rewrite N.shiftl_0_l, !N.lor_0_r).
    destruct (digits_inj (Byte.to_N a) 0 0 (Byte.to_N a') 0 0) as (EA & _);
      try apply byte_to_N_lt; try reflexivity; try assumption.
    apply byte_to_N_inj in EA. now subst.
  - injection E as E1 E2 E3. absurd_pad.
  - injection E as E1 E2 E3. absurd_pad.
  - injection E as E1 E2 E3. absurd_pad.
  - injection E as E1 E2 E3.
    rewrite <- (N.lor_0_r (N.lor (N.shiftl (Byte.to_N a) 16) _)) in E1, E2, E3.
    rewrite <- (N.lor_0_r (N.lor (N.shiftl (Byte.to_N a') 16) _)) in E1, E2, E3.
    destruct (digits_inj (Byte.to_N a) (Byte.to_N b) 0
                         (Byte.to_N a') (Byte.to_N b') 0) as (EA & EB & _);
      try apply byte_to_N_lt; try reflexivity; try assumption.
    apply byte_to_N_inj in EA. specialize (EB E3 eq_refl).
    apply byte_to_N_inj in EB. now subst.
  - injection E as E1 E2 E3 E4. absurd_pad.
  - injection E as E1 E2 E3 E4. absurd_pad.
  - injection E as E1 E2 E3 E4. absurd_pad.
  - injection E as E1 E2 E3 E4 E5.
    destruct (digits_inj (Byte.to_N a) (Byte.to_N b) (Byte.to_N c)
                         (Byte.to_N a') (Byte.to_N b') (Byte.to_N c'))
      as (EA & _ & EBC); try apply byte_to_N_lt; try assumption.
    destruct (EBC E3 E4) as [EB EC].
    apply byte_to_N_inj in EA, EB, EC. subst.
    f_equal. f_equal. f_equal. apply IH; [|exact E5]. cbn in Hn. lia.
Qed.

Lemma b64encode_inj (s s' : bytes) :
  Base64.b64encode s = Base64.b64encode s' -> s = s'.
Proof. apply (b64encode_inj_upto (S (length s))). lia. Qed.

(** *** The signed message determines what was signed *)

Lemma has_char_app (c : ascii) (x y : string) :
  has_char c (x ++ y) = has_char c x || has_char c y.
Proof.
  induction x as [|d x IH]; [reflexivity|].
  rewrite append_cons. cbn [has_char]. now rewrite IH, orb_assoc.
Qed.

Lemma first_dot_unique (a a' x x' : string) :
  has_char "." a = false -> has_char "." a' = false ->
  a ++ String "." x = a' ++ String "." x' -> a = a' /\ x = x'.
Proof.
  revert a'. induction a as [|c a IH]; intros [|c' a'] Ha Ha' E;
    rewrite ?append_cons, ?append_nil_l in E.
  - injection E as ->. auto.
  - injection E as <- _. cbn in Ha'. discriminate.
  - injection E as -> _. cbn in Ha. discriminate.
  - injection E as -> E. cbn [has_char] in Ha, Ha'.
    apply orb_false_elim in Ha as [_ Ha]. apply orb_false_elim in Ha' as [_ Ha'].
    destruct (IH a' Ha Ha' E) as [-> ->]. auto.
Qed.

Lemma last_dot_unique (x x' b b' : string) :
  has_char "." b = false -> has_char "." b' = false ->
  x ++ String "." b = x' ++ String "." b' -> x = x' /\ b = b'.
Proof.
  intros Hb Hb'. revert x'. induction x as [|c x IH]; intros [|c' x'] E;
    rewrite ?append_cons, ?append_nil_l in E.
  - injection E as ->. auto.
  - injection E as _ E. rewrite E, has_char_app in Hb. cbn in Hb.
    now rewrite orb_true_r in Hb.
  - injection E as _ E. rewrite <- E, has_char_app in Hb'. cbn in Hb'.
    now rewrite orb_true_r in Hb'.
  - injection E as -> E. destruct (IH x' E) as [-> ->]. auto.
Qed.

Lemma b64_no_dot (s : bytes) :
  has_char "." (decode (Base64.b64encode s)) = false.
Proof.
  assert (Henc : forall i, Ascii.eqb "." (ascii_of_byte (Base64.enc i)) = false).
  { intros i. unfold Base64.enc.
    assert (Hlt : (N.to_nat (N.land i 63) < 64)%nat).
    { assert (N.land i 63 < 64)%N; [|lia].
      change 63%N with (N.ones 6). rewrite N.land_ones.
      apply N.mod_upper_bound. discriminate. }
    generalize dependent (N.to_nat (N.land i 63)). intros n Hlt.
    do 64 (destruct n as [|n]; [reflexivity|]). lia. }
  assert (H3 : forall n rest, (length rest < n)%nat ->
             has_char "." (decode (Base64.b64encode rest)) = false).
  { induction n as [|n IH]; intros rest Hn; [lia|].
    destruct rest as [|a [|b [|c rest]]]; cbn [Base64.b64encode]; cbn zeta;
      unfold decode, string_of_list_byte;
      cbn [map string_of_list_ascii has_char]; rewrite ?Henc; try reflexivity.
    cbn [orb]. apply IH. cbn in Hn. lia. }
  apply (H3 (S (length s))). lia.
Qed.

Lemma decode_inj (b b' : bytes) : decode b = decode b' -> b = b'.
Proof.
  unfold decode. intros E.
  rewrite <- (list_byte_of_string_of_list_byte b),
    <- (list_byte_of_string_of_list_byte b'). now rewrite E.
Qed.

(** X9. When the method and the timestamp hold no dot, the signed message
    determines the method, the path, the timestamp and the body: two
    requests with the same signed message agree on all four. *)
Theorem X9_signed_message_determines_fields (r1 r2 : Request)
  (t1 t2 : string) :
  headers_get (headers r1) "WalletPay-Timestamp" = Some t1 ->
  headers_get (headers r2) "WalletPay-Timestamp" = Some t2 ->
  has_char "." (method r1) = false -> has_char "." (method r2) = false ->
  has_char "." t1 = false -> has_char "." t2 = false ->
  signed_message r1 = signed_message r2 ->
  method r1 = method r2 /\ signed_path r1 = signed_path r2
  /\ t1 = t2 /\ body r1 = body r2.
Proof.
  intros Ht1 Ht2 Hm1 Hm2 Hd1 Hd2. unfold signed_message.
  rewrite Ht1, Ht2. cbn [format_opt].
  set (B1 := decode (Base64.b64encode (body r1))).
  set (B2 := decode (Base64.b64encode (body r2))).
  assert (HB1 : has_char "." B1 = false) by apply b64_no_dot.
  assert (HB2 : has_char "." B2 = false) by apply b64_no_dot.
  change (method r1 ++ String "." (signed_path r1 ++ String "." (t1 ++ String "." B1))
          = method r2 ++ String "." (signed_path r2 ++ String "." (t2 ++ String "." B2))
          -> method r1 = method r2 /\ signed_path r1 = signed_path r2
             /\ t1 = t2 /\ body r1 = body r2).
  intros E. apply first_dot_unique in E as [Em E]; [|assumption..].
  change (signed_path r1 ++ ("." ++ t1) ++ String "." B1
          = signed_path r2 ++ ("." ++ t2) ++ String "." B2) in E.
  rewrite <- !append_assoc in E.
  apply last_dot_unique in E as [E EB]; [|assumption..].
  rewrite !append_assoc in E.
  change ("." ++ t1) with (String "." t1) in E.
  change ("." ++ t2) with (String "." t2) in E.
  apply last_dot_unique in E as [Ep Et]; [|assumption..].
  apply decode_inj, b64encode_inj in EB. auto.
Qed.

(** *** The candidates of the forwarded-for header *)

Lemma append_nil_r (a : string) : a ++ "" = a.
Proof. induction a as [|x a IH]; [reflexivity|]. now rewrite append_cons, IH. Qed.

Lemma length_append (a b : string) :
  String.length (a ++ b) = (String.length a + String.length b)%nat.
Proof.
  induction a as [|x a IH]; [reflexivity|].
  rewrite append_cons. cbn [String.length]. now rewrite IH.
Qed.

Lemma rev_string_app (acc s : string) :
  rev_string acc s = rev_string "" s ++ acc.
Proof.
  revert acc. induction s as [|c s IH]; intros acc; [reflexivity|].
  cbn [rev_string]. rewrite (IH (String c acc)), (IH (String c "")).
  now rewrite append_assoc.
Qed.

Lemma startswith_app (p s : string) :
  startswith p s = true -> exists rest, s = p ++ rest.
Proof.
  revert s. induction p as [|a p IH]; intros s E.
  - now exists s.
  - destruct s as [|b s]; [discriminate|]. cbn [startswith] in E.
    apply andb_prop in E as [Eab E]. apply Ascii.eqb_eq in Eab as ->.
    destruct (IH s E) as [rest ->]. now exists rest.
Qed.

Lemma startswith_refl_app (p rest : string) : startswith p (p ++ rest) = true.
Proof.
  induction p as [|a p IH]; [reflexivity|].
  rewrite append_cons. cbn [startswith]. now rewrite Ascii.eqb_refl, IH.
Qed.

Lemma split_from_skip (sep d rest cur : string) :
  split_from sep (String.length d) cur (d ++ rest) = split_from sep 0 cur rest.
Proof. induction d as [|c d IH]; [reflexivity|]. exact IH. Qed.

Lemma concat_cons (sep x : string) (l : list string) :
  l <> [] -> String.concat sep (x :: l) = x ++ sep ++ String.concat sep l.
Proof. destruct l; [contradiction|reflexivity]. Qed.

Lemma split_from_not_nil (sep : string) (skip : nat) (cur s : string) :
  split_from sep skip cur s <> [].
Proof.
  revert skip cur. induction s as [|c s IH]; intros skip cur; [discriminate|].
  cbn [split_from]. destruct skip; [|apply IH].
  destruct (startswith sep (String c s)); [discriminate|apply IH].
Qed.

Lemma concat_split_from (sep : string) (n : nat) (s cur : string) :
  sep <> "" -> (String.length s < n)%nat ->
  String.concat sep (split_from sep 0 cur s) = rev_string "" cur ++ s.
Proof.
  intros Hsep. revert s cur. induction n as [|n IH]; intros s cur Hn; [lia|].
  destruct s as [|c s]; [cbn; now rewrite append_nil_r|].
  cbn [split_from]. destruct (startswith sep (String c s)) eqn:E.
  - apply startswith_app in E as [rest E].
    destruct sep as [|c0 sep']; [contradiction|].
    rewrite append_cons in E. injection E as -> ->.
    replace (String.length (String c0 sep') - 1)%nat with (String.length sep')
      by (cbn [String.length]; lia).
    rewrite split_from_skip.
    rewrite concat_cons by apply split_from_not_nil.
    rewrite IH.
    + cbn [rev_string]. now rewrite append_nil_l, append_cons.
    + cbn [String.length] in Hn. rewrite length_append in Hn. lia.
  - rewrite IH by (cbn [String.length] in Hn; lia).
    cbn [rev_string]. rewrite (rev_string_app (String c "") cur).
    now rewrite append_assoc.
Qed.

(** X10. Splitting the forwarded-for header loses nothing: the
    candidates the scan goes through, joined again with a comma and a
    space, give back the header value. *)
Theorem X10_candidates_rejoin_to_header (xff : string) :
  String.concat ", " (split ", " xff) = xff.
Proof.
  unfold split. rewrite (concat_split_from ", " (S (String.length xff))).
  - reflexivity.
  - discriminate.
  - lia.
Qed.

Lemma split_from_no_occurrence (sep s cur : string) :
  ~ occurs sep s -> split_from sep 0 cur s = [rev_string "" cur ++ s].
Proof.
  revert cur. induction s as [|c s IH]; intros cur Hno.
  - cbn. now rewrite append_nil_r.
  - cbn [split_from]. destruct (startswith sep (String c s)) eqn:E.
    + exfalso. apply Hno. apply startswith_app in E as [rest E].
      exists "", rest. now rewrite append_nil_l.
    + rewrite IH.
      * cbn [rev_string]. rewrite (rev_string_app (String c "") cur).
        now rewrite append_assoc.
      * intros (a & b & ->). apply Hno. exists (String c a), b.
        now rewrite append_cons.
Qed.

(** X11. Only a comma followed by a space separates candidates. A header
    value without that pair is a single candidate, whatever commas it
    holds: it opens the IP gate when the whole value is an allowed
    address, and otherwise the resolver falls back on the peer address. *)
Theorem X11_header_without_separator_is_one_candidate (request : Request)
  (xff : string) :
  headers_get (headers request) "X-Forwarded-For" = Some xff ->
  ~ occurs ", " xff ->
  (xff ∈ ALLOWED_IPS -> passes_ip_gate request xff)
  /\ (xff ∉ ALLOWED_IPS ->
      forall st, __get_client_ip request st = direct_peer_evaluation request st).
Proof.
  intros Hh Hno.
  assert (Hs : split ", " xff = [xff])
    by (unfold split; now rewrite split_from_no_occurrence).
  split.
  - intros Hin st. apply __get_client_ip_forwarded.
    unfold __get_x_forwarded_for. rewrite Hh, (allowed_truthy xff Hin).
    cbn [format_opt]. rewrite Hs. cbn [first_allowed].
    now rewrite bool_decide_eq_true_2.
  - intros Hout st. apply __get_client_ip_direct.
    unfold __get_x_forwarded_for. rewrite Hh.
    destruct (truthy (Some xff)); [|reflexivity].
    cbn [format_opt]. rewrite Hs. cbn [first_allowed].
    now rewrite bool_decide_eq_false_2.
Qed.

Lemma occurs_contains (sub s : string) : occurs sub s -> contains sub s = true.
Proof.
  intros (before & after & ->).
  induction before as [|c before IH].
  - rewrite append_nil_l.
    destruct (sub ++ after) as [|c rest] eqn:E; cbn [contains]; rewrite <- E.
    + apply startswith_refl_app.
    + now rewrite startswith_refl_app.
  - rewrite append_cons. cbn [contains]. rewrite IH. apply orb_true_r.
Qed.
End Properties.

(** ** The statements on the samples *)

Section OnSamples.
#[local] Existing Instance Sample.collaborators.

Lemma C3_witness :
  __get_client_ip (H := Sample.collaborators) Sample.forwarded_request Sample.state0
    = (Ok "172.255.248.12", Sample.state0)
  /\ __get_client_ip (H := Sample.collaborators) Sample.outsider_request Sample.state0
     = direct_peer_evaluation Sample.outsider_request Sample.state0.
Proof.
  split.
  - apply (proj1 (C3_forwarded_for_first_allowed
                    Sample.forwarded_request Sample.state0)
             "203.0.113.7, 172.255.248.12, 127.0.0.1"
             ["203.0.113.7"] "172.255.248.12" ["127.0.0.1"]).
    + reflexivity.
    + reflexivity.
    + constructor; [|constructor].
      rewrite elem_of_ALLOWED_IPS. intuition discriminate.
    + rewrite elem_of_ALLOWED_IPS. auto.
  - apply (proj2 (C3_forwarded_for_first_allowed
                    Sample.outsider_request Sample.state0)).
    left. reflexivity.
Defined.

Lemma C4_witness :
  _handle_webhook (H := Sample.collaborators) Sample.manager
      Sample.outsider_request Sample.state0
    = (Raise (HTTPException 403 "IP not allowed"),
       logged ["IP 10.0.0.5 not allowed"] Sample.state0).
Proof.
  apply (proj2 (proj2 (C4_resolver_admits_only_allowed
                         Sample.manager Sample.outsider_request Sample.state0))).
  intros [(ip & xff & Hh & _)|Hp].
  - discriminate.
  - apply elem_of_ALLOWED_IPS in Hp. intuition discriminate.
Defined.

Lemma C10_witness :
  exists self,
    __init__ (H := Sample.collaborators) Sample.the_client default_host
             default_port "wp_webhook" = Ok self
    /\ (String.get 0 "wp_webhook" <> Some "/"%char ->
        webhook_endpoint self = "/wp_webhook")
    /\ (String.get 0 "wp_webhook" = Some "/"%char ->
        webhook_endpoint self = "wp_webhook")
    /\ String.get 0 (webhook_endpoint self) = Some "/"%char.
Proof.
  apply (C10_endpoint_normalised (H := Sample.collaborators)
           Sample.the_client default_host default_port "wp_webhook").
  discriminate.
Defined.

(** C10 as stated fails on the empty string: [webhook_endpoint[0]] raises
    [IndexError] and no manager is built, so no endpoint is stored. *)
Lemma C10_counterexample :
  __init__ (H := Sample.collaborators) Sample.the_client default_host
           default_port "" = Raise IndexError
  /\ ~ (exists self,
          __init__ (H := Sample.collaborators) Sample.the_client default_host
                   default_port "" = Ok self
          /\ String.get 0 (webhook_endpoint self) = Some "/"%char).
Proof.
  split; [reflexivity|]. intros (self & E & _). discriminate.
Qed.

Lemma sample_passes_ip_gate (hdrs : Headers) (text : string) :
  headers_get hdrs "X-Forwarded-For" = None ->
  passes_ip_gate (H := Sample.collaborators)
                 (Sample.post "127.0.0.1" hdrs text) "127.0.0.1".
Proof.
  intros Hh st. rewrite __get_client_ip_direct.
  - reflexivity.
  - apply __get_x_forwarded_for_None. now left.
Qed.


Lemma C1_witness :
  exists st',
    _handle_webhook (H := Sample.collaborators) Sample.manager
        Sample.paid_request Sample.state0
      = (Ok (JObj [("message", JStr "Successful event processed!")]), st')
    /\ awaited st' = [Sample.note "paid-1"; Sample.note "paid-2"]
    /\ world st' = ["paid-1"; "paid-2"].
Proof.
  refine (proj1 (C1_dispatch_by_event_type (H := Sample.collaborators)
                   Sample.manager Sample.paid_request Sample.state0 "127.0.0.1"
                   (Sample.event_json "ORDER_PAID")
                   (JObj [("type", JStr "ORDER_PAID")])
                   {| Sample.sample_type := JStr "ORDER_PAID";
                      Sample.sample_data := JObj [("type", JStr "ORDER_PAID")] |}
                   _ _ _ _ _) _ _).
  - now apply sample_passes_ip_gate.
  - vm_compute. reflexivity.
  - reflexivity.
  - reflexivity.
  - reflexivity.
  - reflexivity.
  - exact I.
Defined.

(** C1 as stated fails when a callback raises: the request passes both
    gates and carries an [ORDER_PAID] event, the first success callback
    raises, the second one is never awaited and the handler returns no
    message. *)
Lemma C1_counterexample :
  let self := Sample.manager_with [Sample.boom; Sample.note "late"] [] in
  passes_ip_gate (H := Sample.collaborators) Sample.paid_request "127.0.0.1"
  /\ passes_signature_gate self Sample.paid_request
  /\ (exists data first event,
         json_loads (body Sample.paid_request) = Some data
         /\ getitem0 data = Ok first
         /\ Event_init first = Ok event
         /\ Event_type event = JStr "ORDER_PAID")
  /\ _handle_webhook self Sample.paid_request Sample.state0
     = (Raise (RuntimeError "boom"),
        {| world := world Sample.state0;
           log := ["Incoming webhook from 127.0.0.1"];
           awaited := [Sample.boom] |})
  /\ ~ (exists st',
          _handle_webhook self Sample.paid_request Sample.state0
            = (Ok (JObj [("message", JStr "Successful event processed!")]), st')
          /\ awaited st' = successful_callbacks self).
Proof.
  cbn zeta.
  assert (E : _handle_webhook (H := Sample.collaborators)
                (Sample.manager_with [Sample.boom; Sample.note "late"] [])
                Sample.paid_request Sample.state0
              = (Raise (RuntimeError "boom"),
                 {| world := world Sample.state0;
                    log := ["Incoming webhook from 127.0.0.1"];
                    awaited := [Sample.boom] |}))
    by (vm_compute; reflexivity).
  split; [now apply sample_passes_ip_gate|].
  split; [vm_compute; reflexivity|].
  split.
  { exists (Sample.event_json "ORDER_PAID"), (JObj [("type", JStr "ORDER_PAID")]).
    eexists. repeat split; reflexivity. }
  split; [exact E|].
  intros (st' & E' & _). rewrite E in E'. discriminate.
Qed.

Lemma C2_witness :
  signed_message Sample.proxied_request
    = canonical_message "POST" "/hooks/wallet" "1700000000"
                        (body Sample.proxied_request)
  /\ signed_message Sample.paid_request
     = canonical_message "POST" "/wp_webhook" "1700000000"
                         (body Sample.paid_request)
  /\ passes_signature_gate Sample.manager Sample.proxied_request.
Proof.
  pose proof (C2_canonical_message Sample.manager Sample.proxied_request
                "1700000000" eq_refl) as (Huri & _ & _ & Hgate).
  pose proof (C2_canonical_message Sample.manager Sample.paid_request
                "1700000000" eq_refl) as (_ & Hlocal & _ & _).
  split; [|split].
  - apply Huri; [reflexivity | discriminate].
  - apply Hlocal. left. reflexivity.
  - apply Hgate. vm_compute. reflexivity.
Defined.

(** C2 as stated fails on an [X-Original-URI] header that is present with
    an empty value: the claim puts the (empty) header value in the
    message, the code puts the locally parsed path there, and accepts the
    signature made over that path. *)
Lemma C2_counterexample :
  headers_get (headers Sample.empty_uri_request) "X-Original-URI" = Some ""
  /\ headers_get (headers Sample.empty_uri_request) "WalletPay-Timestamp"
     = Some "1700000000"
  /\ signed_message Sample.empty_uri_request
     <> canonical_message "POST" "" "1700000000"
                          (body Sample.empty_uri_request)
  /\ signed_message Sample.empty_uri_request
     = canonical_message "POST" "/wp_webhook" "1700000000"
                         (body Sample.empty_uri_request)
  /\ passes_signature_gate Sample.manager Sample.empty_uri_request.
Proof.
  split; [reflexivity|]. split; [reflexivity|].
  split; [vm_compute; discriminate|].
  split; [reflexivity|]. vm_compute. reflexivity.
Qed.

(** C5. A missing [Walletpay-Signature] or [WalletPay-Timestamp] header
    should end in the ordinary invalid-signature response. The code does
    otherwise: without the signature header [compare_digest] is handed
    [None] and raises [TypeError], which leaves the handler unhandled;
    without the timestamp header the text [None] is signed in its place
    and a signature made over it is accepted. *)
Theorem C5_missing_header_behaviour :
  (headers_get (headers Sample.unsigned_request) "Walletpay-Signature" = None
   /\ passes_ip_gate Sample.unsigned_request "127.0.0.1"
   /\ _handle_webhook Sample.manager Sample.unsigned_request Sample.state0
      = (Raise TypeError,
         logged ["Incoming webhook from 127.0.0.1"] Sample.state0)
   /\ fastapi_response (Raise TypeError)
      = {| status := 500; content := TextContent "Internal Server Error" |})
  /\ (headers_get (headers Sample.unstamped_request) "WalletPay-Timestamp" = None
      /\ signed_message Sample.unstamped_request
         = canonical_message "POST" "/wp_webhook" "None"
                             (body Sample.unstamped_request)
      /\ fst (_handle_webhook Sample.manager Sample.unstamped_request
                              Sample.state0)
         = Ok (JObj [("message", JStr "Successful event processed!")])).
Proof.
  split.
  - split; [reflexivity|]. split; [now apply sample_passes_ip_gate|].
    split; [|reflexivity].
    apply _handle_webhook_missing_signature
      with (data := Sample.event_json "ORDER_PAID"); [|reflexivity..].
    now apply sample_passes_ip_gate.
  - split; [reflexivity|]. split; [reflexivity | vm_compute; reflexivity].
Qed.

Lemma C6_witness :
  _handle_webhook Sample.manager Sample.broken_request Sample.state0
    = (Raise JSONDecodeError,
       logged ["Incoming webhook from 127.0.0.1"] Sample.state0)
  /\ _handle_webhook Sample.manager Sample.empty_request Sample.state0
     = (Raise IndexError,
        logged ["Incoming webhook from 127.0.0.1"] Sample.state0).
Proof.
  assert (Hb : passes_ip_gate Sample.broken_request "127.0.0.1")
    by now apply sample_passes_ip_gate.
  assert (He : passes_ip_gate Sample.empty_request "127.0.0.1")
    by now apply sample_passes_ip_gate.
  split.
  - apply (proj1 (C6_malformed_payload_propagates Sample.manager
                    Sample.broken_request Sample.state0 "127.0.0.1" Hb)).
    reflexivity.
  - apply (proj1 (proj2 (C6_malformed_payload_propagates Sample.manager
                           Sample.empty_request Sample.state0 "127.0.0.1" He))).
    + reflexivity.
    + vm_compute. reflexivity.
Defined.

(** C6 as stated fails: a body that is not JSON, sent from an allowed
    address, makes the handler raise the JSON reader's error as it is; the
    handler builds no structured response, and what the framework sends for
    it is a plain-text 500, not a JSON body with a detail field. *)
Lemma C6_counterexample :
  json_loads (body Sample.broken_request) = None
  /\ passes_ip_gate Sample.broken_request "127.0.0.1"
  /\ fst (_handle_webhook Sample.manager Sample.broken_request Sample.state0)
     = Raise JSONDecodeError
  /\ (forall code detail,
        fst (_handle_webhook Sample.manager Sample.broken_request Sample.state0)
        <> Raise (HTTPException code detail))
  /\ (forall j,
        content (fastapi_response
                   (fst (_handle_webhook Sample.manager Sample.broken_request
                                         Sample.state0)))
        <> JsonContent j).
Proof.
  assert (E : fst (_handle_webhook Sample.manager Sample.broken_request
                                   Sample.state0) = Raise JSONDecodeError)
    by (vm_compute; reflexivity).
  split; [reflexivity|]. split; [now apply sample_passes_ip_gate|].
  split; [exact E|]. rewrite E. split; intros; discriminate.
Qed.

Lemma C7_witness :
  _handle_webhook Sample.manager Sample.tampered_request Sample.state0
  = (Raise (HTTPException 400 "Invalid signature"),
     logged ["Incoming webhook from 127.0.0.1";
             "Invalid signature. Expected: " ++ Sample.failed_signature
               ++ " Get from header: " ++ Sample.paid_signature]
            Sample.state0).
Proof.
  assert (E : expected_signature_b64 Sample.manager Sample.tampered_request
              = Sample.failed_signature) by (vm_compute; reflexivity).
  assert (Hip : passes_ip_gate Sample.tampered_request "127.0.0.1")
    by now apply sample_passes_ip_gate.
  assert (Hne : headers_get (headers Sample.tampered_request) "Walletpay-Signature"
                <> Some (expected_signature_b64 Sample.manager
                                                Sample.tampered_request))
    by (rewrite E; discriminate).
  rewrite <- E.
  apply (proj2 (C7_invalid_signature_rejected Sample.manager
                  Sample.tampered_request Sample.state0 "127.0.0.1" Hip Hne)
           (Sample.event_json "ORDER_FAILED") Sample.paid_signature);
    reflexivity.
Defined.

(** C7 as stated fails: with a body that is not JSON the handler raises
    the JSON reader's error before it compares signatures, and with a
    signature header holding a character from 128 on the comparison itself
    raises [TypeError]; in neither case is the outcome the 400
    [Invalid signature] exception. *)
Lemma C7_counterexample :
  (passes_ip_gate Sample.garbled_request "127.0.0.1"
   /\ headers_get (headers Sample.garbled_request) "Walletpay-Signature"
      <> Some (expected_signature_b64 Sample.manager Sample.garbled_request)
   /\ fst (_handle_webhook Sample.manager Sample.garbled_request Sample.state0)
      = Raise JSONDecodeError)
  /\ (passes_ip_gate Sample.latin1_request "127.0.0.1"
      /\ headers_get (headers Sample.latin1_request) "Walletpay-Signature"
         <> Some (expected_signature_b64 Sample.manager Sample.latin1_request)
      /\ fst (_handle_webhook Sample.manager Sample.latin1_request Sample.state0)
         = Raise TypeError).
Proof.
  split; (split; [now apply sample_passes_ip_gate|]);
    (split; [vm_compute; discriminate | vm_compute; reflexivity]).
Qed.

(** The end-to-end scenarios of the specification. *)
Example scenario_A_paid :
  _handle_webhook Sample.manager Sample.paid_request Sample.state0
  = (Ok (JObj [("message", JStr "Successful event processed!")]),
     {| world := ["paid-1"; "paid-2"];
        log := ["Incoming webhook from 127.0.0.1"];
        awaited := [Sample.note "paid-1"; Sample.note "paid-2"] |}).
Proof. vm_compute. reflexivity. Qed.

Example scenario_B_outsider :
  _handle_webhook Sample.manager Sample.outsider_request Sample.state0
  = (Raise (HTTPException 403 "IP not allowed"),
     logged ["IP 10.0.0.5 not allowed"] Sample.state0).
Proof. vm_compute. reflexivity. Qed.

Example scenario_C_tampered :
  fastapi_response
    (fst (_handle_webhook Sample.manager Sample.tampered_request Sample.state0))
  = {| status := 400;
       content := JsonContent (JObj [("detail", JStr "Invalid signature")]) |}.
Proof. vm_compute. reflexivity. Qed.

Example scenario_D_other_type :
  _handle_webhook Sample.manager Sample.other_request Sample.state0
  = (Ok (JObj [("message", JStr "Webhook received with unknown status!")]),
     logged ["Incoming webhook from 127.0.0.1"] Sample.state0).
Proof. vm_compute. reflexivity. Qed.

Example scenario_forwarded :
  _handle_webhook Sample.manager Sample.forwarded_request Sample.state0
  = (Ok (JObj [("message", JStr "Successful event processed!")]),
     {| world := ["paid-1"; "paid-2"];
        log := ["Incoming webhook from 172.255.248.12"];
        awaited := [Sample.note "paid-1"; Sample.note "paid-2"] |}).
Proof. vm_compute. reflexivity. Qed.

Lemma X1_witness :
  exists self',
    __init__ (H := Sample.collaborators) Sample.the_client "127.0.0.1" 8080 "/wp_webhook" = Ok self'
    /\ webhook_endpoint self' = "/wp_webhook".
Proof.
  apply (X1_endpoint_normalisation_idempotent (H := Sample.collaborators)
           Sample.the_client Sample.the_client
           default_host "127.0.0.1" default_port 8080 "wp_webhook"
           (Sample.manager_with [] [])).
  reflexivity.
Defined.

Lemma X3_witness :
  exists st',
    _handle_webhook
        (register_all [OnSuccess (Sample.note "a"); OnFailure (Sample.note "f");
                       OnSuccess (Sample.note "b")]
                      (Sample.manager_with [] []))
        Sample.paid_request Sample.state0
      = (Ok (JObj [("message", JStr "Successful event processed!")]), st')
    /\ awaited st' = [Sample.note "a"; Sample.note "b"]
    /\ world st' = ["a"; "b"].
Proof.
  assert (Hip : passes_ip_gate Sample.paid_request "127.0.0.1")
    by now apply sample_passes_ip_gate.
  refine (proj1 (X3_registered_functions_are_dispatched
                   Sample.the_client default_host default_port "wp_webhook"
                   [OnSuccess (Sample.note "a"); OnFailure (Sample.note "f");
                    OnSuccess (Sample.note "b")]
                   (Sample.manager_with [] []) Sample.paid_request Sample.state0
                   "127.0.0.1" (Sample.event_json "ORDER_PAID")
                   (JObj [("type", JStr "ORDER_PAID")])
                   {| Sample.sample_type := JStr "ORDER_PAID";
                      Sample.sample_data := JObj [("type", JStr "ORDER_PAID")] |}
                   eq_refl Hip _ eq_refl eq_refl eq_refl) eq_refl I).
  vm_compute. reflexivity.
Defined.

Lemma X5_witness :
  exists ip data first event,
    passes_ip_gate Sample.forwarded_request ip
    /\ ip ∈ ALLOWED_IPS
    /\ json_loads (body Sample.forwarded_request) = Some data
    /\ headers_get (headers Sample.forwarded_request) "Walletpay-Signature"
       = Some (expected_signature_b64 Sample.manager Sample.forwarded_request)
    /\ getitem0 data = Ok first
    /\ Event_init first = Ok event
    /\ Event_type event = JStr "ORDER_PAID".
Proof.
  destruct (X5_effects_only_past_the_gates Sample.manager
              Sample.forwarded_request Sample.state0)
    as (ip & data & first & event & H1 & H2 & H3 & H4 & H5 & H6 & H7).
  - left. eexists. vm_compute. reflexivity.
  - exists ip, data, first, event. do 6 (split; [assumption|]).
    destruct (H7 (JObj [("message", JStr "Successful event processed!")]))
      as [[_ Hty]|[[Hd _]|[Hd _]]]; [vm_compute; reflexivity|exact Hty|..];
      discriminate.
Defined.

Lemma X6_witness :
  _handle_webhook
      (Sample.manager_with [Sample.note "early"; Sample.boom; Sample.note "late"] [])
      Sample.paid_request Sample.state0
  = (Raise (RuntimeError "boom"),
     {| world := ["early"];
        log := ["Incoming webhook from 127.0.0.1"];
        awaited := [Sample.note "early"; Sample.boom] |}).
Proof.
  assert (Hip : passes_ip_gate Sample.paid_request "127.0.0.1")
    by now apply sample_passes_ip_gate.
  assert (Hsig : passes_signature_gate
                   (Sample.manager_with
                      [Sample.note "early"; Sample.boom; Sample.note "late"] [])
                   Sample.paid_request) by (vm_compute; reflexivity).
  apply (X6_raising_callback_stops_dispatch
           (Sample.manager_with
              [Sample.note "early"; Sample.boom; Sample.note "late"] [])
           Sample.paid_request Sample.state0 "127.0.0.1"
           (Sample.event_json "ORDER_PAID")
           (JObj [("type", JStr "ORDER_PAID")])
           {| Sample.sample_type := JStr "ORDER_PAID";
              Sample.sample_data := JObj [("type", JStr "ORDER_PAID")] |}
           [Sample.note "early"] [Sample.note "late"] Sample.boom
           (RuntimeError "boom") ["early"] Hip Hsig eq_refl eq_refl eq_refl).
  - left. split; reflexivity.
  - exact I.
  - reflexivity.
Defined.

Lemma X7_witness :
  exists st1 st2,
    _handle_webhook Sample.manager Sample.paid_request Sample.state0
      = (Ok (JObj [("message", JStr "Successful event processed!")]), st1)
    /\ _handle_webhook Sample.manager Sample.paid_request st1
       = (Ok (JObj [("message", JStr "Successful event processed!")]), st2)
    /\ awaited st2
       = [Sample.note "paid-1"; Sample.note "paid-2";
          Sample.note "paid-1"; Sample.note "paid-2"]
    /\ world st2 = ["paid-1"; "paid-2"; "paid-1"; "paid-2"].
Proof.
  assert (Hip : passes_ip_gate Sample.paid_request "127.0.0.1")
    by now apply sample_passes_ip_gate.
  assert (Hsig : passes_signature_gate Sample.manager Sample.paid_request)
    by (vm_compute; reflexivity).
  apply (X7_replayed_request_runs_callbacks_again Sample.manager
           Sample.paid_request Sample.state0 "127.0.0.1"
           (Sample.event_json "ORDER_PAID")
           (JObj [("type", JStr "ORDER_PAID")])
           {| Sample.sample_type := JStr "ORDER_PAID";
              Sample.sample_data := JObj [("type", JStr "ORDER_PAID")] |}
           Hip Hsig eq_refl eq_refl eq_refl eq_refl).
  exact I.
Defined.

Lemma X12_witness :
  passes_ip_gate (forwarded_as "127.0.0.1" "203.0.113.9" Sample.paid_request)
                 "127.0.0.1"
  /\ passes_signature_gate Sample.manager
       (forwarded_as "127.0.0.1" "203.0.113.9" Sample.paid_request).
Proof.
  assert (Hin : "127.0.0.1" ∈ ALLOWED_IPS)
    by (apply elem_of_ALLOWED_IPS; auto).
  destruct (X12_forwarded_header_opens_ip_gate Sample.manager
              Sample.paid_request "127.0.0.1" "203.0.113.9" Hin)
    as (Hgate & _ & Hsig).
  split; [exact Hgate|]. apply Hsig. vm_compute. reflexivity.
Defined.

Lemma X15_witness :
  _handle_webhook Sample.manager Sample.latin1_request Sample.state0
  = (Raise TypeError, logged ["Incoming webhook from 127.0.0.1"] Sample.state0).
Proof.
  assert (Hip : passes_ip_gate Sample.latin1_request "127.0.0.1")
    by now apply sample_passes_ip_gate.
  apply (X15_non_ascii_signature_raises_type_error Sample.manager
           Sample.latin1_request Sample.state0 "127.0.0.1"
           (Sample.event_json "ORDER_PAID") (String "233" EmptyString) Hip);
    reflexivity.
Defined.

Lemma X8_witness :
  expected_signature_b64 Sample.manager
    (Sample.post "127.0.0.1"
       [("x-original-uri", "/wp_webhook.1700"); ("walletpay-timestamp", "000000")]
       (Sample.event_text "ORDER_PAID"))
  = expected_signature_b64 Sample.manager
      (Sample.post "127.0.0.1" [("walletpay-timestamp", "1700.000000")]
         (Sample.event_text "ORDER_PAID")).
Proof.
  apply (X8_field_boundary_is_not_signed Sample.manager
           (Sample.post "127.0.0.1"
              [("x-original-uri", "/wp_webhook.1700");
               ("walletpay-timestamp", "000000")]
              (Sample.event_text "ORDER_PAID"))
           (Sample.post "127.0.0.1" [("walletpay-timestamp", "1700.000000")]
              (Sample.event_text "ORDER_PAID"))
           "/wp_webhook" "1700" "000000"); reflexivity.
Defined.

Lemma X9_witness :
  method Sample.paid_request = method Sample.forwarded_request
  /\ signed_path Sample.paid_request = signed_path Sample.forwarded_request
  /\ "1700000000" = "1700000000"
  /\ body Sample.paid_request = body Sample.forwarded_request.
Proof.
  apply (X9_signed_message_determines_fields Sample.paid_request
           Sample.forwarded_request "1700000000" "1700000000"); reflexivity.
Defined.

Lemma X11_witness :
  __get_client_ip
    (Sample.post "10.0.0.5"
       [("x-forwarded-for", "127.0.0.1,172.255.248.12")]
       (Sample.event_text "ORDER_PAID")) Sample.state0
  = (Raise (HTTPException 403 "IP not allowed"),
     logged ["IP 10.0.0.5 not allowed"] Sample.state0).
Proof.
  assert (Hno : ~ occurs ", " "127.0.0.1,172.255.248.12").
  { intros Hocc. apply occurs_contains in Hocc. discriminate. }
  assert (Hout : "127.0.0.1,172.255.248.12" ∉ ALLOWED_IPS).
  { rewrite elem_of_ALLOWED_IPS. intuition discriminate. }
  rewrite (proj2 (X11_header_without_separator_is_one_candidate
                    (Sample.post "10.0.0.5"
                       [("x-forwarded-for", "127.0.0.1,172.255.248.12")]
                       (Sample.event_text "ORDER_PAID"))
                    "127.0.0.1,172.255.248.12" eq_refl Hno) Hout).
  reflexivity.
Defined.

End OnSamples.

(** ** The statements on the odd payloads *)

Section OnOddities.
#[local] Existing Instance Oddities.collaborators.

Lemma odd_passes_ip_gate (hdrs : Headers) (text : string) :
  headers_get hdrs "X-Forwarded-For" = None ->
  passes_ip_gate (Sample.post "127.0.0.1" hdrs text) "127.0.0.1".
Proof.
  intros Hh st. rewrite __get_client_ip_direct.
  - reflexivity.
  - apply __get_x_forwarded_for_None. now left.
Qed.

Lemma X13_witness :
  _handle_webhook Oddities.manager Oddities.bare_event_request Oddities.state0
    = (Raise KeyError,
       logged ["Incoming webhook from 127.0.0.1"] Oddities.state0)
  /\ _handle_webhook Oddities.manager Oddities.number_request Oddities.state0
     = (Raise TypeError,
        logged ["Incoming webhook from 127.0.0.1"] Oddities.state0).
Proof.
  assert (Hb : passes_ip_gate Oddities.bare_event_request "127.0.0.1")
    by now apply odd_passes_ip_gate.
  assert (Hn : passes_ip_gate Oddities.number_request "127.0.0.1")
    by now apply odd_passes_ip_gate.
  assert (Sb : passes_signature_gate Oddities.manager Oddities.bare_event_request)
    by (vm_compute; reflexivity).
  assert (Sn : passes_signature_gate Oddities.manager Oddities.number_request)
    by (vm_compute; reflexivity).
  split.
  - apply (proj1 (X13_payload_that_is_not_a_list Oddities.manager
                    Oddities.bare_event_request Oddities.state0 "127.0.0.1"
                    (JObj [("type", JStr "ORDER_PAID")]) Hb Sb eq_refl)).
    eexists. reflexivity.
  - apply (proj1 (proj2 (X13_payload_that_is_not_a_list Oddities.manager
                           Oddities.number_request Oddities.state0 "127.0.0.1"
                           (JInt 42) Hn Sn eq_refl))).
    right. right. left. eexists. reflexivity.
Defined.

Lemma X14_witness :
  _handle_webhook Oddities.manager Oddities.list_of_number_request
                  Oddities.state0
  = (Raise TypeError, logged ["Incoming webhook from 127.0.0.1"] Oddities.state0).
Proof.
  assert (Hip : passes_ip_gate Oddities.list_of_number_request "127.0.0.1")
    by now apply odd_passes_ip_gate.
  assert (Hsig : passes_signature_gate Oddities.manager
                   Oddities.list_of_number_request) by (vm_compute; reflexivity).
  apply (X14_event_constructor_error_propagates Oddities.manager
           Oddities.list_of_number_request Oddities.state0 "127.0.0.1"
           (JArr [JInt 1]) (JInt 1) TypeError Hip Hsig); reflexivity.
Defined.

End OnOddities.
